(** * Research-notebook client and pipeline: a shallow embedding

    The React client ([services/api.ts], [types.ts], [ChatInterface.tsx],
    [SourceList], [TaskList.tsx]) is embedded function by function.  The
    client talks to a server through [fetch]; the values it receives are
    JavaScript values obtained from [response.json()], so the service layer
    is modelled on untyped JavaScript values, and the interfaces of
    [types.ts] as records. *)

From Stdlib Require Import ZArith Lia List String Ascii Bool.
From stdpp Require Import base option strings list sorting gmap pretty infinite.
Import ListNotations.

Set Warnings "-register-all".
Local Open Scope string_scope.
Local Open Scope list_scope.
Local Open Scope Z_scope.

(** ** JavaScript values, errors and promises *)

Module Js.

(** Values as [JSON.parse] produces them, plus [undefined].  Numbers are
    restricted to integers (the client only handles counts, HTTP status
    codes and message order values). *)
Inductive JsValue : Type :=
| JUndefined
| JNull
| JBool (b : bool)
| JNum (n : Z)
| JStr (s : string)
| JArr (items : list JsValue)
| JObj (props : list (string * JsValue)).

(** Thrown values.  All three are instances of [Error]; the payload is the
    [message] property. *)
Inductive JsError : Type :=
| Error (message : string)
| SyntaxError (message : string)
| TypeError (message : string).

Definition message (e : JsError) : string :=
  match e with
  | Error m | SyntaxError m | TypeError m => m
  end.

(** A settled promise. *)
Inductive Promise (T : Type) : Type :=
| Resolved (v : T)
| Rejected (e : JsError).
Arguments Resolved {T} v.
Arguments Rejected {T} e.

#[global] Instance promise_ret : MRet Promise := fun _ v => Resolved v.
#[global] Instance promise_bind : MBind Promise := fun _ _ f p =>
  match p with
  | Resolved v => f v
  | Rejected e => Rejected e
  end.

(** [try { p } catch (e) { h e }] *)
Definition try_catch {T} (p : Promise T) (h : JsError -> Promise T) : Promise T :=
  match p with
  | Resolved v => Resolved v
  | Rejected e => h e
  end.

Definition is_rejected {T} (p : Promise T) : bool :=
  match p with
  | Resolved _ => false
  | Rejected _ => true
  end.

(** Truthiness of a value, as [||], [&&], [!] and [if] see it. *)
Definition truthy (v : JsValue) : bool :=
  match v with
  | JUndefined | JNull => false
  | JBool b => b
  | JNum n => negb (n =? 0)
  | JStr s => negb (String.eqb s "")
  | JArr _ | JObj _ => true
  end.

(** [a || b] *)
Definition js_or (a b : JsValue) : JsValue := if truthy a then a else b.

(** Property read [o.k] on an object literal; the first binding stands for
    the property. *)
Fixpoint assoc (k : string) (props : list (string * JsValue)) : JsValue :=
  match props with
  | [] => JUndefined
  | (k', v) :: rest => if String.eqb k k' then v else assoc k rest
  end.

(** [v?.k]: [undefined] on [null] and [undefined], a property read on an
    object; arrays, strings, numbers and booleans have no such own data
    property for the keys the client reads. *)
Definition opt_get (v : JsValue) (k : string) : JsValue :=
  match v with
  | JObj props => assoc k props
  | _ => JUndefined
  end.

(** [String(v)], as the [Error] constructor applies it to its argument. *)
Fixpoint js_toString (v : JsValue) : string :=
  match v with
  | JUndefined => "undefined"
  | JNull => "null"
  | JBool true => "true"
  | JBool false => "false"
  | JNum n => pretty n
  | JStr s => s
  | JArr items =>
      String.concat ","
        (map (fun x => match x with
                       | JUndefined | JNull => ""
                       | _ => js_toString x
                       end) items)
  | JObj _ => "[object Object]"
  end.

(** [s.includes(sub)] *)
Definition includes (s sub : string) : bool :=
  match String.index 0 sub s with
  | Some _ => true
  | None => false
  end.

(** White space that [trim] removes (the ASCII part of it). *)
Definition is_space (c : ascii) : bool :=
  match nat_of_ascii c with
  | 9%nat | 10%nat | 11%nat | 12%nat | 13%nat | 32%nat => true
  | _ => false
  end.

Fixpoint trimStart (s : string) : string :=
  match s with
  | EmptyString => EmptyString
  | String c rest => if is_space c then trimStart rest else s
  end.

Definition trim (s : string) : string :=
  String.rev (trimStart (String.rev (trimStart s))).

(** [!s.trim()] *)
Definition blank (s : string) : bool := String.eqb (trim s) "".

(** Spread [...v] inside an array literal: the elements of an array, the
    characters of a string, a [TypeError] on anything else. *)
Definition spread (v : JsValue) : option (list JsValue) :=
  match v with
  | JArr items => Some items
  | JStr s => Some (map (fun c => JStr (String c EmptyString)) (list_ascii_of_string s))
  | _ => None
  end.

(** [l.sort(cmp)] for a consistent comparator: the sort is stable. *)
Fixpoint insert_by {A} (cmp : A -> A -> Z) (x : A) (l : list A) : list A :=
  match l with
  | [] => [x]
  | y :: rest => if cmp x y <=? 0 then x :: l else y :: insert_by cmp x rest
  end.

Definition sort_by {A} (cmp : A -> A -> Z) (l : list A) : list A :=
  foldr (insert_by cmp) [] l.

(** [s.substring(0, n) + (s.length > n ? '...' : '')], on strings without
    characters outside the Basic Latin block (one unit per character). *)
Definition ellipsis (n : nat) (s : string) : string :=
  String.substring 0 n s +:+ (if (n <? String.length s)%nat then "..." else "").

(** Property read [v.k]: a [TypeError] on [undefined] and [null]. *)
Definition get_prop (v : JsValue) (k : string) : Promise JsValue :=
  match v with
  | JUndefined | JNull => Rejected (TypeError "Cannot read properties of undefined")
  | _ => Resolved (opt_get v k)
  end.

End Js.
Import Js.

(** ** [services/api.ts] *)

Module Api.

Record Response : Type := {
  ok : bool;
  status : Z;
  content_type : option string;   (* [headers.get('content-type')] *)
  json : Promise JsValue;         (* [response.json()] *)
  text : Promise string           (* [response.text()] *)
}.

Record Request : Type := {
  url : string;
  method : string;
  headers : list (string * string);
  body : option JsValue           (* the argument of [JSON.stringify] *)
}.

(** [fetch]: the server (and the network) seen from the client. *)
Definition Fetch : Type := Request -> Promise Response.

Definition API_BASE_URL : string := "http://localhost:8501/api".

Definition GET (u : string) : Request :=
  {| url := u; method := "GET"; headers := []; body := None |}.
Definition DELETE (u : string) : Request :=
  {| url := u; method := "DELETE"; headers := []; body := None |}.
Definition with_json (m u : string) (b : JsValue) : Request :=
  {| url := u; method := m;
     headers := [("Content-Type", "application/json")]; body := Some b |}.

Definition http_error (response : Response) : string :=
  "HTTP error! status: " +:+ pretty (status response).

(** [response.headers.get('content-type')?.includes('application/json')] *)
Definition is_json (response : Response) : bool :=
  match content_type response with
  | Some ct => includes ct "application/json"
  | None => false
  end.

Definition handleApiResponse (response : Response) : Promise JsValue :=
  if negb (ok response) then
    let errorData : JsValue :=
      match
        (if is_json response
         then json response
         else
           textError ← text response;
           mret (JObj [("message",
                        JStr (if String.eqb textError "" then http_error response
                              else textError))]))
      with
      | Resolved d => d
      | Rejected _ =>
          JObj [("message",
                 JStr (http_error response +:+ " and failed to parse error response."))]
      end in
    Rejected (Error (js_toString
      (js_or (opt_get errorData "message") (JStr (http_error response)))))
  else if status response =? 204 then Resolved JUndefined
  else json response.

Definition fetchNotebooks (fetch : Fetch) : Promise JsValue :=
  response ← fetch (GET (API_BASE_URL +:+ "/notebooks"));
  handleApiResponse response.

Definition fetchNotebookById (fetch : Fetch) (id : string) : Promise JsValue :=
  try_catch
    (response ← fetch (GET (API_BASE_URL +:+ "/notebooks/" +:+ id));
     if status response =? 404 then Resolved JUndefined
     else handleApiResponse response)
    (fun error => Rejected error).

Definition createNotebook (fetch : Fetch) (name : string) (description : JsValue)
  : Promise JsValue :=
  response ← fetch (with_json "POST" (API_BASE_URL +:+ "/notebooks")
                      (JObj [("name", JStr name); ("description", description)]));
  handleApiResponse response.

Definition fetchSourcesByNotebookId (fetch : Fetch) (notebookId : string)
  : Promise JsValue :=
  response ← fetch (GET (API_BASE_URL +:+ "/notebooks/" +:+ notebookId +:+ "/sources"));
  handleApiResponse response.

Definition addSource (fetch : Fetch) (notebookId type content : string) (title : JsValue)
  : Promise JsValue :=
  response ← fetch (with_json "POST"
                      (API_BASE_URL +:+ "/notebooks/" +:+ notebookId +:+ "/sources")
                      (JObj [("type", JStr type); ("content", JStr content);
                             ("title", title)]));
  handleApiResponse response.

Definition fetchNotesByNotebookId (fetch : Fetch) (notebookId : string)
  : Promise JsValue :=
  response ← fetch (GET (API_BASE_URL +:+ "/notebooks/" +:+ notebookId +:+ "/notes"));
  handleApiResponse response.

Definition createChatSession (fetch : Fetch) (notebookId : string) (title : JsValue)
  : Promise JsValue :=
  response ← fetch (with_json "POST"
                      (API_BASE_URL +:+ "/notebooks/" +:+ notebookId +:+ "/chats")
                      (JObj [("title", title)]));
  handleApiResponse response.

Definition getChatSessions (fetch : Fetch) (notebookId : string) : Promise JsValue :=
  response ← fetch (GET (API_BASE_URL +:+ "/notebooks/" +:+ notebookId +:+ "/chats"));
  handleApiResponse response.

Definition getChatMessages (fetch : Fetch) (chatSessionId : string) : Promise JsValue :=
  response ← fetch (GET (API_BASE_URL +:+ "/chats/" +:+ chatSessionId +:+ "/messages"));
  handleApiResponse response.

(** The endpoint answers with a list holding the user's new message and the
    assistant's response. *)
Definition postChatMessage (fetch : Fetch) (chatSessionId content : string)
  : Promise JsValue :=
  response ← fetch (with_json "POST"
                      (API_BASE_URL +:+ "/api/chats/" +:+ chatSessionId +:+ "/messages")
                      (JObj [("content", JStr content); ("sender", JStr "user")]));
  handleApiResponse response.

Definition deleteSource (fetch : Fetch) (sourceId : string) : Promise unit :=
  response ← fetch (DELETE (API_BASE_URL +:+ "/api/sources/" +:+ sourceId));
  _ ← handleApiResponse response;
  mret tt.

Definition updateSource (fetch : Fetch) (sourceId : string) (data : JsValue)
  : Promise JsValue :=
  response ← fetch (with_json "PUT" (API_BASE_URL +:+ "/api/sources/" +:+ sourceId) data);
  handleApiResponse response.

(** [params || {}] *)
Definition runSourceTransformation (fetch : Fetch) (sourceId transformationType : string)
    (params : JsValue) : Promise JsValue :=
  response ← fetch (with_json "POST"
                      (API_BASE_URL +:+ "/api/sources/" +:+ sourceId +:+ "/transformations")
                      (JObj [("type", JStr transformationType);
                             ("params", js_or params (JObj []))]));
  handleApiResponse response.

Definition fetchTasksByNotebookId (fetch : Fetch) (notebookId : string)
  : Promise JsValue :=
  response ← fetch (GET (API_BASE_URL +:+ "/notebooks/" +:+ notebookId +:+ "/tasks"));
  handleApiResponse response.

Definition updateTask (fetch : Fetch) (taskId : string) (updates : JsValue)
  : Promise JsValue :=
  response ← fetch (with_json "PUT" (API_BASE_URL +:+ "/tasks/" +:+ taskId) updates);
  handleApiResponse response.

Definition deleteTask (fetch : Fetch) (taskId : string) : Promise unit :=
  response ← fetch (DELETE (API_BASE_URL +:+ "/tasks/" +:+ taskId));
  _ ← handleApiResponse response;
  mret tt.

Definition addNote (fetch : Fetch) (notebookId title content : string) : Promise JsValue :=
  response ← fetch (with_json "POST"
                      (API_BASE_URL +:+ "/api/notebooks/" +:+ notebookId +:+ "/notes")
                      (JObj [("title", JStr title); ("content", JStr content);
                             ("note_type", JStr "human")]));
  handleApiResponse response.

Definition updateNote (fetch : Fetch) (noteId title content : string) : Promise JsValue :=
  response ← fetch (with_json "PUT" (API_BASE_URL +:+ "/api/notes/" +:+ noteId)
                      (JObj [("title", JStr title); ("content", JStr content)]));
  handleApiResponse response.

Definition deleteNote (fetch : Fetch) (noteId : string) : Promise unit :=
  response ← fetch (DELETE (API_BASE_URL +:+ "/api/notes/" +:+ noteId));
  _ ← handleApiResponse response;
  mret tt.

(** [status: status || 'todo']; an omitted argument is [undefined]. *)
Definition createTask (fetch : Fetch) (notebookId description : string)
    (status due_date order : JsValue) : Promise JsValue :=
  response ← fetch (with_json "POST"
                      (API_BASE_URL +:+ "/notebooks/" +:+ notebookId +:+ "/tasks")
                      (JObj [("description", JStr description);
                             ("notebook_id", JStr notebookId);
                             ("due_date", due_date); ("order", order);
                             ("status", js_or status (JStr "todo"))]));
  handleApiResponse response.

End Api.
Import Api.

(** ** [types.ts] *)

Module SourceType.
Inductive t : Type := url | file | text | scraped_web_page.

Definition literal (ty : t) : string :=
  match ty with
  | url => "url"
  | file => "file"
  | text => "text"
  | scraped_web_page => "scraped_web_page"
  end.
End SourceType.

(** An optional property: absent, or present with its value. *)
Definition optional {A} (k : string) (f : A -> JsValue) (o : option A)
  : list (string * JsValue) :=
  match o with
  | Some a => [(k, f a)]
  | None => []
  end.

Module SourceStatus.
(** The literals of [Source.status]; the field itself is optional. *)
Inductive t : Type := processed | pending | error.

Definition literal (s : t) : string :=
  match s with
  | processed => "processed"
  | pending => "pending"
  | error => "error"
  end.
End SourceStatus.

Module Asset.
Record t : Type := {
  file_path : option string;
  url : option string;
  source_type : option string
}.

Definition to_js (a : t) : JsValue :=
  JObj (optional "file_path" JStr (file_path a) ++ optional "url" JStr (url a)
        ++ optional "source_type" JStr (source_type a)).
End Asset.

(** [string[] | string] *)
Inductive TextOrList : Type :=
| Block (s : string)
| Items (l : list string).

Definition TextOrList_to_js (v : TextOrList) : JsValue :=
  match v with
  | Block s => JStr s
  | Items l => JArr (map JStr l)
  end.

Module Source.
Record t : Type := {
  id : string;
  notebookId : string;
  type : SourceType.t;
  content : option string;
  title : option string;
  createdAt : string;
  status : option SourceStatus.t;
  asset : option Asset.t;
  keyInsights : option TextOrList;
  simpleSummary : option string;
  reflectionQuestions : option TextOrList
}.


(** The properties of the object behind a Source, as [response.json()]
    yields it: an optional property that is not set is absent. *)
Definition props (s : t) : list (string * JsValue) :=
  [("id", JStr (id s)); ("notebookId", JStr (notebookId s));
   ("type", JStr (SourceType.literal (type s)))]
  ++ optional "content" JStr (content s)
  ++ optional "title" JStr (title s)
  ++ [("createdAt", JStr (createdAt s))]
  ++ optional "status" (fun x => JStr (SourceStatus.literal x)) (status s)
  ++ optional "asset" Asset.to_js (asset s)
  ++ optional "keyInsights" TextOrList_to_js (keyInsights s)
  ++ optional "simpleSummary" JStr (simpleSummary s)
  ++ optional "reflectionQuestions" TextOrList_to_js (reflectionQuestions s).

Definition to_js (s : t) : JsValue := JObj (props s).





End Source.

Module Sender.
Inductive t : Type := user | ai.

Definition literal (s : t) : string :=
  match s with
  | user => "user"
  | ai => "ai"
  end.
End Sender.

Module NoteType.
Inductive t : Type := ai | human.
End NoteType.

Module Note.
Record t : Type := {
  id : string;
  notebookId : string;
  title : string;
  content : string;
  createdAt : string;
  updatedAt : string;
  note_type : option NoteType.t
}.
End Note.

Module ChatSession.
Record t : Type := {
  id : string;
  title : string;
  created_at : string;
  updated_at : string
}.
End ChatSession.

Module ChatMessage.
Record t : Type := {
  id : string;
  chat_session_id : string;
  sender : Sender.t;
  content : string;
  timestamp : string;
  order : option Z
}.

(** The object [response.json()] yields for a message; an absent [order] is
    an absent property. *)
Definition to_js (m : t) : JsValue :=
  JObj ([("id", JStr (id m)); ("chat_session_id", JStr (chat_session_id m));
         ("sender", JStr (Sender.literal (sender m))); ("content", JStr (content m));
         ("timestamp", JStr (timestamp m))]
        ++ match order m with
           | Some o => [("order", JNum o)]
           | None => []
           end).
End ChatMessage.

Module TaskStatus.
(** The status literals of a task, as [createTask] types its parameter. *)
Inductive t : Type := todo | in_progress | completed.

Definition literal (s : t) : string :=
  match s with
  | todo => "todo"
  | in_progress => "in_progress"
  | completed => "completed"
  end.
End TaskStatus.

Module Task.
(** The declaration of [Task] is not part of [types.ts] as available; the
    fields are the ones [createTask], [updateTask] and [TaskList] use. *)
Record t : Type := {
  id : string;
  notebook_id : string;
  description : string;
  status : TaskStatus.t;
  created_at : string;
  updated_at : string
}.
End Task.

(** ** [ChatInterface.tsx] *)

Module ChatInterface.

(** The component state.  [messages] holds whatever [setMessages] was given:
    the array the component starts with, or a value received from the
    server. *)
Record State : Type := {
  messages : JsValue;
  loadingMessages : bool;
  messageError : option string;
  newMessageContent : string;
  isSending : bool
}.

Definition initial : State :=
  {| messages := JArr []; loadingMessages := false; messageError := None;
     newMessageContent := ""; isSending := false |}.

Definition setMessages (v : JsValue) (st : State) : State :=
  {| messages := v; loadingMessages := loadingMessages st;
     messageError := messageError st; newMessageContent := newMessageContent st;
     isSending := isSending st |}.
Definition setLoadingMessages (b : bool) (st : State) : State :=
  {| messages := messages st; loadingMessages := b;
     messageError := messageError st; newMessageContent := newMessageContent st;
     isSending := isSending st |}.
Definition setMessageError (e : option string) (st : State) : State :=
  {| messages := messages st; loadingMessages := loadingMessages st;
     messageError := e; newMessageContent := newMessageContent st;
     isSending := isSending st |}.
Definition setNewMessageContent (s : string) (st : State) : State :=
  {| messages := messages st; loadingMessages := loadingMessages st;
     messageError := messageError st; newMessageContent := s;
     isSending := isSending st |}.
Definition setIsSending (b : bool) (st : State) : State :=
  {| messages := messages st; loadingMessages := loadingMessages st;
     messageError := messageError st; newMessageContent := newMessageContent st;
     isSending := b |}.

(** What a handler leaves behind: the next state, or a component that threw
    while applying a state updater. *)
Inductive Rendered : Type :=
| Mounted (st : State)
| Crashed (e : JsError).

Definition loadMessages (fetch : Fetch) (chatSessionId : string) (st : State) : State :=
  if String.eqb chatSessionId "" then st
  else
    let st := setMessageError None (setLoadingMessages true st) in
    let st :=
      match getChatMessages fetch chatSessionId with
      | Resolved fetchedMessages => setMessages fetchedMessages st
      | Rejected _ => setMessageError (Some "Failed to load messages.") st
      end in
    setLoadingMessages false st.

(** [prevMessages => [...prevMessages, ...responseMessages]] *)
Definition appendMessages (responseMessages prevMessages : JsValue) : option JsValue :=
  match spread prevMessages, spread responseMessages with
  | Some prev, Some new => Some (JArr (prev ++ new))
  | _, _ => None
  end.

Definition handleSendMessage (fetch : Fetch) (chatSessionId : string) (st : State)
  : Rendered :=
  if blank (newMessageContent st) || String.eqb chatSessionId "" then Mounted st
  else
    let st := setMessageError None (setIsSending true st) in
    match postChatMessage fetch chatSessionId (newMessageContent st) with
    | Resolved responseMessages =>
        match appendMessages responseMessages (messages st) with
        | Some msgs =>
            Mounted (setIsSending false (setNewMessageContent "" (setMessages msgs st)))
        | None => Crashed (TypeError "responseMessages is not iterable")
        end
    | Rejected _ =>
        Mounted (setIsSending false (setMessageError (Some "Failed to send message.") st))
    end.

End ChatInterface.

(** ** [SourceList] *)

Module SourceList.


(** The part of the component state [handleRunTransformation] reads and
    writes; [null] is [JNull]. *)
Record State : Type := {
  selectedSourceForView : option Source.t;
  selectedTransformationType : string;
  isTransforming : bool;
  transformationResult : JsValue;
  transformationError : option string
}.

Definition setIsTransforming (b : bool) (st : State) : State :=
  {| selectedSourceForView := selectedSourceForView st;
     selectedTransformationType := selectedTransformationType st;
     isTransforming := b; transformationResult := transformationResult st;
     transformationError := transformationError st |}.
Definition setTransformationResult (r : JsValue) (st : State) : State :=
  {| selectedSourceForView := selectedSourceForView st;
     selectedTransformationType := selectedTransformationType st;
     isTransforming := isTransforming st; transformationResult := r;
     transformationError := transformationError st |}.
Definition setTransformationError (e : option string) (st : State) : State :=
  {| selectedSourceForView := selectedSourceForView st;
     selectedTransformationType := selectedTransformationType st;
     isTransforming := isTransforming st; transformationResult := transformationResult st;
     transformationError := e |}.

Definition handleRunTransformation (fetch : Fetch) (st : State) : State :=
  match selectedSourceForView st with
  | None => st
  | Some source =>
      if String.eqb (selectedTransformationType st) "" then st
      else
        let st :=
          setTransformationError None
            (setTransformationResult JNull (setIsTransforming true st)) in
        let st :=
          match runSourceTransformation fetch (Source.id source)
                  (selectedTransformationType st) (JObj []) with
          | Resolved result => setTransformationResult result st
          | Rejected err => setTransformationError (Some (message err)) st
          end in
        setIsTransforming false st
  end.




(** [source.asset?.url] and [source.asset?.file_path] where the code tests
    them and then uses them: the empty string stands for a falsy value. *)
Definition asset_url (source : Source.t) : string :=
  match Source.asset source with
  | Some a => default "" (Asset.url a)
  | None => ""
  end.

Definition asset_file_path (source : Source.t) : string :=
  match Source.asset source with
  | Some a => default "" (Asset.file_path a)
  | None => ""
  end.

(** [typeof source.content === 'string' && source.content.trim() !== ''] *)
Definition has_content (source : Source.t) : bool :=
  match Source.content source with
  | Some c => negb (blank c)
  | None => false
  end.

Definition is_url (ty : SourceType.t) : bool :=
  match ty with
  | SourceType.url => true
  | _ => false
  end.

Definition is_file (ty : SourceType.t) : bool :=
  match ty with
  | SourceType.file => true
  | _ => false
  end.

(** The title and the preview a row of the source list shows. *)
Definition mainIdentifier (source : Source.t) : string :=
  if is_url (Source.type source) && negb (String.eqb (asset_url source) "")
  then asset_url source
  else if is_file (Source.type source) && negb (String.eqb (asset_file_path source) "")
  then asset_file_path source
  else if has_content source then default "" (Source.content source)
  else "".

Definition displayTitle (source : Source.t) : string :=
  let title := default "" (Source.title source) in
  if negb (String.eqb title "") then title
  else if negb (String.eqb (mainIdentifier source) "")
  then ellipsis 100 (mainIdentifier source)
  else "Untitled Source".

Definition contentPreview (source : Source.t) : string :=
  if has_content source then ellipsis 100 (default "" (Source.content source))
  else if negb (String.eqb (mainIdentifier source) "")
          && negb (String.eqb (mainIdentifier source) (displayTitle source))
  then mainIdentifier source
  else "No additional content preview available.".

(** The rest of the component state: the list, the form that adds a source
    and the confirmation that deletes one; [alerts] collects what [alert]
    was called with. *)
Record Listing : Type := {
  sources : JsValue;
  loading : bool;
  error : option string
}.

Record AddForm : Type := {
  showAddSourceModal : bool;
  newSourceType : SourceType.t;
  newSourceContent : string;
  newSourceTitle : string;
  isAddingSource : bool
}.

Record Deletion : Type := {
  sourceToDelete : option Source.t;
  showDeleteConfirmModal : bool;
  isDeletingSource : bool;
  deleteError : option string
}.

Record Page : Type := {
  listing : Listing;
  form : AddForm;
  deletion : Deletion;
  showViewSourceModal : bool;
  view : State;
  alerts : list string
}.

Definition loadSources (fetch : Fetch) (notebookId : string) (l : Listing) : Listing :=
  if String.eqb notebookId "" then l
  else
    match fetchSourcesByNotebookId fetch notebookId with
    | Resolved data => {| sources := data; loading := false; error := None |}
    | Rejected _ =>
        {| sources := sources l; loading := false;
           error := Some "Failed to fetch sources." |}
    end.

Definition handleAddSource (fetch : Fetch) (notebookId : string) (p : Page) : Page :=
  if blank (newSourceContent (form p)) then
    {| listing := listing p; form := form p; deletion := deletion p;
       showViewSourceModal := showViewSourceModal p; view := view p;
       alerts := alerts p ++ ["Content/URL is required."] |}
  else
    match addSource fetch notebookId (SourceType.literal (newSourceType (form p)))
            (newSourceContent (form p)) (JStr (newSourceTitle (form p))) with
    | Resolved _ =>
        {| listing :=
             loadSources fetch notebookId
               {| sources := sources (listing p); loading := loading (listing p);
                  error := None |};
           form := {| showAddSourceModal := false; newSourceType := SourceType.url;
                      newSourceContent := ""; newSourceTitle := "";
                      isAddingSource := false |};
           deletion := deletion p; showViewSourceModal := showViewSourceModal p;
           view := view p; alerts := alerts p |}
    | Rejected _ =>
        {| listing := {| sources := sources (listing p); loading := loading (listing p);
                         error := Some "Failed to add source. Please try again." |};
           form := {| showAddSourceModal := showAddSourceModal (form p);
                      newSourceType := newSourceType (form p);
                      newSourceContent := newSourceContent (form p);
                      newSourceTitle := newSourceTitle (form p);
                      isAddingSource := false |};
           deletion := deletion p; showViewSourceModal := showViewSourceModal p;
           view := view p; alerts := alerts p |}
    end.

Definition handleShowDeleteConfirm (source : Source.t) (p : Page) : Page :=
  {| listing := listing p; form := form p;
     deletion := {| sourceToDelete := Some source; showDeleteConfirmModal := true;
                    isDeletingSource := isDeletingSource (deletion p);
                    deleteError := None |};
     showViewSourceModal := showViewSourceModal p; view := view p; alerts := alerts p |}.

Definition handleConfirmDeleteSource (fetch : Fetch) (notebookId : string) (p : Page)
  : Page :=
  match sourceToDelete (deletion p) with
  | None => p
  | Some source =>
      match deleteSource fetch (Source.id source) with
      | Resolved _ =>
          {| listing := loadSources fetch notebookId (listing p); form := form p;
             deletion := {| sourceToDelete := None; showDeleteConfirmModal := false;
                            isDeletingSource := false; deleteError := None |};
             showViewSourceModal := false;
             view := {| selectedSourceForView := None;
                        selectedTransformationType := selectedTransformationType (view p);
                        isTransforming := isTransforming (view p);
                        transformationResult := transformationResult (view p);
                        transformationError := transformationError (view p) |};
             alerts := alerts p |}
      | Rejected err =>
          {| listing := listing p; form := form p;
             deletion := {| sourceToDelete := Some source;
                            showDeleteConfirmModal := showDeleteConfirmModal (deletion p);
                            isDeletingSource := false;
                            deleteError := Some (message err) |};
             showViewSourceModal := showViewSourceModal p; view := view p;
             alerts := alerts p |}
      end
  end.

End SourceList.

(** ** [TaskList.tsx] *)

Module TaskList.

#[global] Instance TaskStatus_eq_dec : EqDecision TaskStatus.t.
Proof. solve_decision. Defined.

(** [const newStatus = task.status === 'todo' ? 'in_progress'
      : task.status === 'in_progress' ? 'completed' : 'todo'] *)
Definition newStatus (task : Task.t) : TaskStatus.t :=
  if decide (Task.status task = TaskStatus.todo) then TaskStatus.in_progress
  else if decide (Task.status task = TaskStatus.in_progress) then TaskStatus.completed
  else TaskStatus.todo.

(** The task [updateTask(task.id, { status: newStatus })] asks the server to
    store. *)
Definition toggled (task : Task.t) : Task.t :=
  {| Task.id := Task.id task; Task.notebook_id := Task.notebook_id task;
     Task.description := Task.description task; Task.status := newStatus task;
     Task.created_at := Task.created_at task; Task.updated_at := Task.updated_at task |}.

Record State : Type := {
  tasks : list Task.t;
  error : option string
}.

Section Handlers.
(** [updateTask(task.id, { status })] of the service layer, typed as the
    component sees it, and [new Date(s).getTime()]. *)
Variable updateTask : string -> TaskStatus.t -> Promise Task.t.
Variable getTime : string -> Z.

(** [(a, b) => getTime(b.created_at) - getTime(a.created_at)]: newest
    first. *)
Definition newest_first (a b : Task.t) : Z :=
  getTime (Task.created_at b) - getTime (Task.created_at a).

Definition handleToggleStatus (task : Task.t) (st : State) : State :=
  match updateTask (Task.id task) (newStatus task) with
  | Resolved updated =>
      {| tasks :=
           sort_by newest_first
             (map (fun t => if String.eqb (Task.id t) (Task.id task) then updated else t)
                  (tasks st));
         error := None |}
  | Rejected err => {| tasks := tasks st; error := Some (message err) |}
  end.
End Handlers.

(** The rest of the component state. *)
Record Page : Type := {
  shown : State;
  newTaskDescription : string;
  isLoading : bool;
  editingTaskId : option string;
  editingText : string
}.

Section Component.
(** The service calls, typed as the component sees them:
    [fetchTasksByNotebookId(notebookId)],
    [createTask(notebookId, description, 'todo')],
    [updateTask(taskId, { description })] and [deleteTask(taskId)]. *)
Variable fetchTasks : string -> Promise (list Task.t).
Variable createTodo : string -> string -> Promise Task.t.
Variable updateDescription : string -> string -> Promise Task.t.
Variable removeTask : string -> Promise unit.
Variable getTime : string -> Z.


Definition handleAddTask (notebookId : string) (p : Page) : Page :=
  if blank (newTaskDescription p) then p
  else
    match createTodo notebookId (newTaskDescription p) with
    | Resolved newTask =>
        {| shown := {| tasks := sort_by (newest_first getTime) (newTask :: tasks (shown p));
                      error := None |};
           newTaskDescription := ""; isLoading := isLoading p;
           editingTaskId := editingTaskId p; editingText := editingText p |}
    | Rejected err =>
        {| shown := {| tasks := tasks (shown p); error := Some (message err) |};
           newTaskDescription := newTaskDescription p; isLoading := isLoading p;
           editingTaskId := editingTaskId p; editingText := editingText p |}
    end.

Definition handleDeleteTask (taskId : string) (p : Page) : Page :=
  {| shown :=
       match removeTask taskId with
       | Resolved _ =>
           {| tasks := sort_by (newest_first getTime)
                         (filter (fun t => Task.id t <> taskId) (tasks (shown p)));
              error := None |}
       | Rejected err => {| tasks := tasks (shown p); error := Some (message err) |}
       end;
     newTaskDescription := newTaskDescription p; isLoading := isLoading p;
     editingTaskId := editingTaskId p; editingText := editingText p |}.

Definition startEdit (task : Task.t) (p : Page) : Page :=
  {| shown := shown p; newTaskDescription := newTaskDescription p;
     isLoading := isLoading p; editingTaskId := Some (Task.id task);
     editingText := Task.description task |}.

Definition handleUpdateDescription (taskId : string) (p : Page) : Page :=
  if blank (editingText p) then p
  else
    match updateDescription taskId (editingText p) with
    | Resolved updated =>
        {| shown :=
             {| tasks := sort_by (newest_first getTime)
                           (map (fun t => if String.eqb (Task.id t) taskId then updated else t)
                                (tasks (shown p)));
                error := None |};
           newTaskDescription := newTaskDescription p; isLoading := isLoading p;
           editingTaskId := None; editingText := "" |}
    | Rejected err =>
        {| shown := {| tasks := tasks (shown p); error := Some (message err) |};
           newTaskDescription := newTaskDescription p; isLoading := isLoading p;
           editingTaskId := editingTaskId p; editingText := editingText p |}
    end.

End Component.


End TaskList.

(** ** [NotebookDetail] *)

Module NotebookDetail.

(** The part of the component state [loadNotebookDetails] writes; [null] is
    [JNull]. *)
Record State : Type := {
  notebook : JsValue;
  loading : bool;
  error : option string
}.

Definition loadNotebookDetails (fetch : Fetch) (notebookId : string) (st : State) : State :=
  if String.eqb notebookId "" then st
  else
    match fetchNotebookById fetch notebookId with
    | Resolved fetchedNotebook =>
        if truthy fetchedNotebook
        then {| notebook := fetchedNotebook; loading := false; error := error st |}
        else {| notebook := notebook st; loading := false;
                error := Some "Notebook not found." |}
    | Rejected _ =>
        {| notebook := notebook st; loading := false;
           error := Some "Failed to fetch notebook details." |}
    end.

(** The chat tab: the sessions of the notebook, the selected one ([null] is
    [JNull]) and the dialog that creates one. *)
Record Chat : Type := {
  chatSessions : JsValue;
  loadingChatSessions : bool;
  chatError : option string;
  selectedChatSessionId : JsValue;
  showCreateChatModal : bool;
  newChatSessionTitle : string
}.

Inductive Rendered : Type :=
| Mounted (c : Chat)
| Crashed (e : JsError).

Definition loadChatSessions (fetch : Fetch) (notebookId : string) (c : Chat) : Chat :=
  if String.eqb notebookId "" then c
  else
    match getChatSessions fetch notebookId with
    | Resolved sessions =>
        {| chatSessions := sessions; loadingChatSessions := false; chatError := None;
           selectedChatSessionId := selectedChatSessionId c;
           showCreateChatModal := showCreateChatModal c;
           newChatSessionTitle := newChatSessionTitle c |}
    | Rejected _ =>
        {| chatSessions := chatSessions c; loadingChatSessions := false;
           chatError := Some "Failed to load chat sessions.";
           selectedChatSessionId := selectedChatSessionId c;
           showCreateChatModal := showCreateChatModal c;
           newChatSessionTitle := newChatSessionTitle c |}
    end.

(** [newChatSessionTitle.trim() || undefined] *)
Definition titleToUse (c : Chat) : JsValue :=
  js_or (JStr (trim (newChatSessionTitle c))) JUndefined.

(** The updater [prevSessions => [newSession, ...prevSessions]] is queued
    before [newSession.id] is read, so it applies also when that read throws
    and the [catch] reports the failure. *)
Definition handleCreateChatSession (fetch : Fetch) (notebookId : string) (c : Chat)
  : Rendered :=
  if String.eqb notebookId "" then Mounted c
  else
    match createChatSession fetch notebookId (titleToUse c) with
    | Resolved newSession =>
        match spread (chatSessions c) with
        | None => Crashed (TypeError "prevSessions is not iterable")
        | Some prevSessions =>
            match get_prop newSession "id" with
            | Resolved id =>
                Mounted
                  {| chatSessions := JArr (newSession :: prevSessions);
                     loadingChatSessions := loadingChatSessions c; chatError := None;
                     selectedChatSessionId := id; showCreateChatModal := false;
                     newChatSessionTitle := "" |}
            | Rejected _ =>
                Mounted
                  {| chatSessions := JArr (newSession :: prevSessions);
                     loadingChatSessions := loadingChatSessions c;
                     chatError := Some "Failed to create chat session.";
                     selectedChatSessionId := selectedChatSessionId c;
                     showCreateChatModal := showCreateChatModal c;
                     newChatSessionTitle := newChatSessionTitle c |}
            end
        end
    | Rejected _ =>
        Mounted
          {| chatSessions := chatSessions c;
             loadingChatSessions := loadingChatSessions c;
             chatError := Some "Failed to create chat session.";
             selectedChatSessionId := selectedChatSessionId c;
             showCreateChatModal := showCreateChatModal c;
             newChatSessionTitle := newChatSessionTitle c |}
    end.

End NotebookDetail.

(** ** [NoteList] *)

Module NoteList.

Record Listing : Type := {
  notes : JsValue;
  loading : bool;
  error : option string
}.

Record AddModal : Type := {
  showAddNoteModal : bool;
  newNoteTitle : string;
  newNoteContent : string;
  isAddingNote : bool;
  addNoteError : option string
}.

Record EditModal : Type := {
  showEditNoteModal : bool;
  noteToEdit : option Note.t;
  editNoteTitle : string;
  editNoteContent : string;
  isEditingNote : bool;
  editNoteError : option string
}.

Record DeleteModal : Type := {
  showDeleteConfirmModal : bool;
  noteToDelete : option Note.t;
  isDeletingNote : bool;
  deleteNoteError : option string
}.

Record State : Type := {
  listing : Listing;
  adding : AddModal;
  editing : EditModal;
  deleting : DeleteModal
}.

Definition loadNotes (fetch : Fetch) (notebookId : string) (l : Listing) : Listing :=
  if String.eqb notebookId "" then l
  else
    match fetchNotesByNotebookId fetch notebookId with
    | Resolved data => {| notes := data; loading := false; error := None |}
    | Rejected _ =>
        {| notes := notes l; loading := false; error := Some "Failed to fetch notes." |}
    end.

Definition setAddNoteError (e : option string) (a : AddModal) : AddModal :=
  {| showAddNoteModal := showAddNoteModal a; newNoteTitle := newNoteTitle a;
     newNoteContent := newNoteContent a; isAddingNote := isAddingNote a;
     addNoteError := e |}.

Definition handleShowAddNoteModal (a : AddModal) : AddModal :=
  {| showAddNoteModal := true; newNoteTitle := ""; newNoteContent := "";
     isAddingNote := isAddingNote a; addNoteError := None |}.

Definition handleCloseAddNoteModal (a : AddModal) : AddModal :=
  {| showAddNoteModal := false; newNoteTitle := newNoteTitle a;
     newNoteContent := newNoteContent a; isAddingNote := isAddingNote a;
     addNoteError := None |}.

Definition handleAddNote (fetch : Fetch) (notebookId : string) (st : State) : State :=
  if blank (newNoteTitle (adding st)) then
    {| listing := listing st;
       adding := setAddNoteError (Some "Title is required.") (adding st);
       editing := editing st; deleting := deleting st |}
  else if blank (newNoteContent (adding st)) then
    {| listing := listing st;
       adding := setAddNoteError (Some "Content is required.") (adding st);
       editing := editing st; deleting := deleting st |}
  else
    match addNote fetch notebookId (newNoteTitle (adding st))
            (newNoteContent (adding st)) with
    | Resolved _ =>
        {| listing := loadNotes fetch notebookId (listing st);
           adding := {| showAddNoteModal := false;
                        newNoteTitle := newNoteTitle (adding st);
                        newNoteContent := newNoteContent (adding st);
                        isAddingNote := false; addNoteError := None |};
           editing := editing st; deleting := deleting st |}
    | Rejected _ =>
        {| listing := listing st;
           adding := {| showAddNoteModal := showAddNoteModal (adding st);
                        newNoteTitle := newNoteTitle (adding st);
                        newNoteContent := newNoteContent (adding st);
                        isAddingNote := false;
                        addNoteError := Some "Failed to add note. Please try again." |};
           editing := editing st; deleting := deleting st |}
    end.

Definition setEditNoteError (e : option string) (m : EditModal) : EditModal :=
  {| showEditNoteModal := showEditNoteModal m; noteToEdit := noteToEdit m;
     editNoteTitle := editNoteTitle m; editNoteContent := editNoteContent m;
     isEditingNote := isEditingNote m; editNoteError := e |}.

Definition handleShowEditNoteModal (note : Note.t) (m : EditModal) : EditModal :=
  {| showEditNoteModal := true; noteToEdit := Some note;
     editNoteTitle := Note.title note; editNoteContent := Note.content note;
     isEditingNote := isEditingNote m; editNoteError := None |}.

Definition handleCloseEditNoteModal (m : EditModal) : EditModal :=
  {| showEditNoteModal := false; noteToEdit := None;
     editNoteTitle := editNoteTitle m; editNoteContent := editNoteContent m;
     isEditingNote := isEditingNote m; editNoteError := None |}.

Definition handleUpdateNote (fetch : Fetch) (notebookId : string) (st : State) : State :=
  match noteToEdit (editing st) with
  | None =>
      {| listing := listing st; adding := adding st;
         editing := setEditNoteError (Some "No note selected for editing.") (editing st);
         deleting := deleting st |}
  | Some note =>
      if blank (editNoteTitle (editing st)) then
        {| listing := listing st; adding := adding st;
           editing := setEditNoteError (Some "Title is required.") (editing st);
           deleting := deleting st |}
      else if blank (editNoteContent (editing st)) then
        {| listing := listing st; adding := adding st;
           editing := setEditNoteError (Some "Content is required.") (editing st);
           deleting := deleting st |}
      else
        match updateNote fetch (Note.id note) (editNoteTitle (editing st))
                (editNoteContent (editing st)) with
        | Resolved _ =>
            {| listing := loadNotes fetch notebookId (listing st); adding := adding st;
               editing := {| showEditNoteModal := false; noteToEdit := None;
                             editNoteTitle := editNoteTitle (editing st);
                             editNoteContent := editNoteContent (editing st);
                             isEditingNote := false; editNoteError := None |};
               deleting := deleting st |}
        | Rejected _ =>
            {| listing := listing st; adding := adding st;
               editing := {| showEditNoteModal := showEditNoteModal (editing st);
                             noteToEdit := Some note;
                             editNoteTitle := editNoteTitle (editing st);
                             editNoteContent := editNoteContent (editing st);
                             isEditingNote := false;
                             editNoteError :=
                               Some "Failed to update note. Please try again." |};
               deleting := deleting st |}
        end
  end.

Definition handleShowDeleteConfirmModal (note : Note.t) (m : DeleteModal) : DeleteModal :=
  {| showDeleteConfirmModal := true; noteToDelete := Some note;
     isDeletingNote := isDeletingNote m; deleteNoteError := None |}.

Definition handleCloseDeleteConfirmModal (m : DeleteModal) : DeleteModal :=
  {| showDeleteConfirmModal := false; noteToDelete := None;
     isDeletingNote := isDeletingNote m; deleteNoteError := None |}.

Definition handleDeleteNote (fetch : Fetch) (notebookId : string) (st : State) : State :=
  match noteToDelete (deleting st) with
  | None => st
  | Some note =>
      if String.eqb notebookId "" then st
      else
        match deleteNote fetch (Note.id note) with
        | Resolved _ =>
            {| listing := loadNotes fetch notebookId (listing st); adding := adding st;
               editing := editing st;
               deleting := {| showDeleteConfirmModal := false; noteToDelete := None;
                              isDeletingNote := false; deleteNoteError := None |} |}
        | Rejected _ =>
            {| listing := listing st; adding := adding st; editing := editing st;
               deleting := {| showDeleteConfirmModal := showDeleteConfirmModal (deleting st);
                              noteToDelete := Some note; isDeletingNote := false;
                              deleteNoteError :=
                                Some "Failed to delete note. Please try again." |} |}
        end
  end.

End NoteList.

(** ** The pipeline behind the API

    The server the client calls (Source Registry, Transformation Executor,
    Context Selector, Chat Orchestrator) is not among the client sources.
    Its operations are modelled here from the specification, over the
    message type of [types.ts]; the external capabilities (content
    extractor, assistant, context selection, clock) are the fields of an
    explicit configuration, and a new record gets an identity that is not
    in use. *)

Module Core.

(** Modelled from the spec: the error taxonomy of section 7 (the server code
    is missing); [SessionNotFound] is the error of [postMessage] step 1. *)
Inductive ErrorClass : Type := transient | permanent.
Inductive CoreError : Type :=
| NotFound
| InvalidState
| ExtractionFailed (reason : string)
| UnknownTransformation
| GenerationFailed (class : ErrorClass) (reason : string)
| SessionNotFound.

(** Modelled from the spec: the [origin] variant of a Source (missing server
    data model), one payload shape per tag. *)
Inductive Origin : Type :=
| url (u : string)
| file (path : string)
| text (raw : string)
| scraped_page (markdown source_url : string).

(** Modelled from the spec: the outcomes of the external Content Extractor
    and Assistant Adapter (section 6), which are absent from the sources. *)
Inductive Extraction : Type :=
| NormalizedText (t : string)
| ExtractionError (reason : string).
Inductive Generation : Type :=
| GeneratedText (t : string)
| GenerationError (class : ErrorClass) (reason : string).

(** Modelled from the spec: the Source status of the missing Source
    Registry, and the events that drive it (section 4.1). *)
Inductive Status : Type := pending | processing | processed | error.
Inductive Event : Type :=
| StartIngestion
| ExtractionSucceeded
| ExtractionFailure
| RetryRequested
| TransformationRun.

(** Modelled from the spec: the Registry's state machine (missing server
    code): pending -> processing -> processed | error; a retry request
    re-enters processing from error; an additional transformation leaves
    processed unchanged.  [None] is [InvalidState]. *)
Definition transition (s : Status) (e : Event) : option Status :=
  match s, e with
  | pending, StartIngestion => Some processing
  | processing, ExtractionSucceeded => Some processed
  | processing, ExtractionFailure => Some error
  | error, RetryRequested => Some processing
  | processed, TransformationRun => Some processed
  | _, _ => None
  end.

(** Modelled from the spec: a Transformation (read-only configuration of the
    missing Transformation Executor): a description and a prompt template. *)
Record Transformation : Type := {
  description : string;
  template : string
}.

(** Modelled from the spec: a Source record of the missing server data model
    (section 3), with the cached extracted content of section 4.2 and the
    mapping from artifact name to artifact value. *)
Record SourceRec : Type := {
  src_notebook : string;
  src_origin : Origin;
  src_title : option string;
  src_status : Status;
  src_detail : option string;
  src_created : string;
  src_content : option string;
  src_artifacts : gmap string TextOrList
}.

(** Modelled from the spec: a chat session of the missing Chat Orchestrator
    with the ordered sequence of messages it owns. *)
Record Session : Type := {
  ses_notebook : string;
  ses_title : option string;
  ses_messages : list ChatMessage.t
}.

(** Modelled from the spec: an entry of a Context Set and the prompt context
    handed to the Assistant Adapter (sections 4.2 to 4.4, server code
    missing). *)
Record Excerpt : Type := {
  excerpt : string;
  relevance : Z
}.
Inductive Prompt : Type :=
| ChatPrompt (context : list Excerpt) (history : list ChatMessage.t)
| TransformPrompt (content : string) (template : string) (params : list (string * string)).

(** Modelled from the spec: the persisted state of the missing server; the
    clock counts the records written so far. *)
Record Store : Type := {
  sources : gmap string SourceRec;
  sessions : gmap string Session;
  clock : nat
}.

Definition empty : Store := {| sources := ∅; sessions := ∅; clock := 0 |}.

(** Modelled from the spec: the explicit configuration struct of section 9
    (adapters, retry count, context budget) that replaces the missing
    server's global configuration.  [generate] receives the number of the
    attempt; [select] answers [None] when context selection fails. *)
Record Config : Type := {
  extract : Origin -> Extraction;
  generate : nat -> Prompt -> Generation;
  select : gmap string SourceRec -> string -> string -> nat -> option (list Excerpt);
  transformations : gmap string Transformation;
  retries : nat;
  budget : nat;
  now : nat -> string;
  time_of : string -> Z
}.

Section Pipeline.
Context (cfg : Config).

(** Modelled from the spec: failure semantics of section 4.2 (missing server
    code): a transient failure is retried up to a bounded count, a permanent
    one is surfaced at once, exhausted retries surface the last error. *)
Fixpoint attempt (left : nat) (n : nat) (p : Prompt) : Generation :=
  match generate cfg n p with
  | GenerationError transient reason =>
      match left with
      | O => GenerationError transient reason
      | S left' => attempt left' (S n) p
      end
  | outcome => outcome
  end.

Definition generate_with_retry (p : Prompt) : Generation :=
  attempt (retries cfg) 0 p.

Definition set_source (id : string) (s : SourceRec) (st : Store) : Store :=
  {| sources := <[id := s]> (sources st); sessions := sessions st; clock := clock st |}.
Definition set_session (id : string) (s : Session) (st : Store) : Store :=
  {| sources := sources st; sessions := <[id := s]> (sessions st); clock := clock st |}.
Definition tick (st : Store) : Store :=
  {| sources := sources st; sessions := sessions st; clock := S (clock st) |}.

Definition with_status (s : Status) (d : option string) (r : SourceRec) : SourceRec :=
  {| src_notebook := src_notebook r; src_origin := src_origin r; src_title := src_title r;
     src_status := s; src_detail := d; src_created := src_created r;
     src_content := src_content r; src_artifacts := src_artifacts r |}.
Definition with_content (t : string) (r : SourceRec) : SourceRec :=
  {| src_notebook := src_notebook r; src_origin := src_origin r; src_title := src_title r;
     src_status := src_status r; src_detail := src_detail r; src_created := src_created r;
     src_content := Some t; src_artifacts := src_artifacts r |}.
Definition with_artifact (name : string) (a : TextOrList) (r : SourceRec) : SourceRec :=
  {| src_notebook := src_notebook r; src_origin := src_origin r; src_title := src_title r;
     src_status := src_status r; src_detail := src_detail r; src_created := src_created r;
     src_content := src_content r; src_artifacts := <[name := a]> (src_artifacts r) |}.

(** Modelled from the spec: [register] of the missing Source Registry
    creates a Source in pending state under a new identity. *)
Definition register (notebookId : string) (origin : Origin) (title : option string)
    (st : Store) : string * Store :=
  let id := fresh (dom (sources st)) in
  (id,
   tick (set_source id
     {| src_notebook := notebookId; src_origin := origin; src_title := title;
        src_status := pending; src_detail := None; src_created := now cfg (clock st);
        src_content := None; src_artifacts := ∅ |} st)).

(** Modelled from the spec: a status transition of one Source, driven by the
    Registry through [transition] (missing server code). *)
Definition fire (id : string) (e : Event) (d : option string) (st : Store)
  : CoreError + Store :=
  match sources st !! id with
  | None => inl NotFound
  | Some r =>
      match transition (src_status r) e with
      | None => inl InvalidState
      | Some s => inr (set_source id (with_status s d r) st)
      end
  end.

(** Modelled from the spec: the ingestion the Registry schedules and the
    retry request of section 4.1 (missing server code). *)
Definition start_ingestion (id : string) (st : Store) : CoreError + Store :=
  fire id StartIngestion None st.
Definition retry (id : string) (st : Store) : CoreError + Store :=
  fire id RetryRequested None st.

(** Modelled from the spec: one extraction of a processing Source, reported
    back to the Registry (section 4.2 step 1, missing server code): success
    caches the normalized text, failure records the reason as error detail. *)
Definition settle_extraction (id : string) (st : Store) : (CoreError + string) * Store :=
  match sources st !! id with
  | None => (inl NotFound, st)
  | Some r =>
      match extract cfg (src_origin r) with
      | NormalizedText t =>
          match fire id ExtractionSucceeded None (set_source id (with_content t r) st) with
          | inr st' => (inr t, st')
          | inl e => (inl e, st)
          end
      | ExtractionError reason =>
          match fire id ExtractionFailure (Some reason) st with
          | inr st' => (inl (ExtractionFailed reason), st')
          | inl e => (inl e, st)
          end
      end
  end.

(** Modelled from the spec: step 1 of [run] (missing Transformation
    Executor): the cached content, or one extraction when none is cached. A
    pending Source is first moved to processing; a Source in error needs a
    retry request first. *)
Definition ensure_extracted (id : string) (st : Store) : (CoreError + string) * Store :=
  match sources st !! id with
  | None => (inl NotFound, st)
  | Some r =>
      match src_content r with
      | Some t => (inr t, st)
      | None =>
          match src_status r with
          | pending =>
              match start_ingestion id st with
              | inr st' => settle_extraction id st'
              | inl e => (inl e, st)
              end
          | processing => settle_extraction id st
          | _ => (inl InvalidState, st)
          end
      end
  end.

(** Modelled from the spec: [run(sourceId, transformationName, params)] of
    the missing Transformation Executor, steps 1 to 4 of section 4.2. *)
Definition run (id name : string) (params : list (string * string)) (st : Store)
  : (CoreError + TextOrList) * Store :=
  match ensure_extracted id st with
  | (inl e, st1) => (inl e, st1)
  | (inr content, st1) =>
      match transformations cfg !! name with
      | None => (inl UnknownTransformation, st1)
      | Some t =>
          match generate_with_retry (TransformPrompt content (template t) params) with
          | GenerationError class reason => (inl (GenerationFailed class reason), st1)
          | GeneratedText out =>
              match sources st1 !! id with
              | None => (inl NotFound, st1)
              | Some r =>
                  match fire id TransformationRun (src_detail r)
                          (set_source id (with_artifact name (Block out) r) st1) with
                  | inr st2 => (inr (Block out), st2)
                  | inl e => (inl e, st1)
                  end
              end
          end
      end
  end.

(** Modelled from the spec: [createSession] of the missing Chat Orchestrator. *)
Definition createSession (notebookId : string) (title : option string) (st : Store)
  : string * Store :=
  let id := fresh (dom (sessions st)) in
  (id,
   tick (set_session id
     {| ses_notebook := notebookId; ses_title := title; ses_messages := [] |} st)).

(** Modelled from the spec: the order key of a message, [order ?? timestamp]
    (section 3; server code missing). *)
Definition msg_key (m : ChatMessage.t) : Z :=
  match ChatMessage.order m with
  | Some o => o
  | None => time_of cfg (ChatMessage.timestamp m)
  end.

(** Modelled from the spec: an order value strictly above the session's
    current tail ([postMessage] steps 2 and 5; server code missing). *)
Definition next_order (msgs : list ChatMessage.t) : Z :=
  match last msgs with
  | Some m => msg_key m + 1
  | None => 1
  end.

Definition append_message (sessionId : string) (who : Sender.t) (body : string)
    (ses : Session) (n : nat) : ChatMessage.t * Session :=
  let m := {| ChatMessage.id :=
                fresh (list_to_set (ChatMessage.id <$> ses_messages ses) : gset string);
              ChatMessage.chat_session_id := sessionId;
              ChatMessage.sender := who;
              ChatMessage.content := body;
              ChatMessage.timestamp := now cfg n;
              ChatMessage.order := Some (next_order (ses_messages ses)) |} in
  (m, {| ses_notebook := ses_notebook ses; ses_title := ses_title ses;
         ses_messages := ses_messages ses ++ [m] |}).

(** Modelled from the spec: [postMessage(sessionId, content)] of the missing
    Chat Orchestrator, steps 1 to 6 of section 4.4 as one atomic step per
    session; a failed context selection degrades to the empty context, a
    failed generation keeps the appended user message. *)
Definition postMessage (sessionId content : string) (st : Store)
  : (CoreError + ChatMessage.t * ChatMessage.t) * Store :=
  match sessions st !! sessionId with
  | None => (inl SessionNotFound, st)
  | Some ses =>
      let '(userMessage, ses1) :=
        append_message sessionId Sender.user content ses (clock st) in
      let st1 := tick (set_session sessionId ses1 st) in
      let context :=
        match select cfg (sources st) (ses_notebook ses) content (budget cfg) with
        | Some c => c
        | None => []
        end in
      match generate_with_retry (ChatPrompt context (ses_messages ses1)) with
      | GenerationError class reason => (inl (GenerationFailed class reason), st1)
      | GeneratedText reply =>
          let '(assistantMessage, ses2) :=
            append_message sessionId Sender.ai reply ses1 (clock st1) in
          (inr (userMessage, assistantMessage), tick (set_session sessionId ses2 st1))
      end
  end.

(** Modelled from the spec: [listMessages], the messages of a session in
    their stored sequence (missing Chat Orchestrator). *)
Definition listMessages (sessionId : string) (st : Store)
  : CoreError + list ChatMessage.t :=
  match sessions st !! sessionId with
  | None => inl SessionNotFound
  | Some ses => inr (ses_messages ses)
  end.

(** Modelled from the spec: the requests the missing server accepts, each
    executed as an independent, atomic unit of work (section 5). *)
Inductive Op : Type :=
| Register (notebookId : string) (origin : Origin) (title : option string)
| StartIngest (id : string)
| Settle (id : string)
| Retry (id : string)
| Run (id name : string) (params : list (string * string))
| CreateSession (notebookId : string) (title : option string)
| PostMessage (sessionId content : string).

Definition or_unchanged (st : Store) (r : CoreError + Store) : Store :=
  match r with
  | inr st' => st'
  | inl _ => st
  end.

Definition apply (st : Store) (op : Op) : Store :=
  match op with
  | Register notebookId origin title => (register notebookId origin title st).2
  | StartIngest id => or_unchanged st (start_ingestion id st)
  | Settle id => (settle_extraction id st).2
  | Retry id => or_unchanged st (retry id st)
  | Run id name params => (run id name params st).2
  | CreateSession notebookId title => (createSession notebookId title st).2
  | PostMessage sessionId content => (postMessage sessionId content st).2
  end.

(** The store after a history of requests, starting from the empty store. *)
Definition after (history : list Op) : Store := foldl apply empty history.

End Pipeline.


(** Modelled from the spec: the invariant of a session's message sequence
    (section 3): every message carries an explicit order value and the
    order keys increase strictly along the sequence. *)
Definition ordered (cfg : Config) (msgs : list ChatMessage.t) : Prop :=
  Forall (fun m => is_Some (ChatMessage.order m)) msgs /\
  StronglySorted (fun m1 m2 => msg_key cfg m1 < msg_key cfg m2) msgs.

(** Modelled from the spec: one edge of the status state machine, and the
    retrieval order of section 3: messages compare by
    [(order ?? timestamp, insertion sequence)], lexicographically. *)
Definition edge (a b : Status) : Prop := exists e, transition a e = Some b.

Definition retrieval_keys (cfg : Config) (msgs : list ChatMessage.t) : list (Z * nat) :=
  imap (fun i m => (msg_key cfg m, i)) msgs.

Definition key_lt (a b : Z * nat) : Prop :=
  a.1 < b.1 \/ (a.1 = b.1 /\ (a.2 < b.2)%nat).

Definition sessions_ordered (cfg : Config) (st : Store) : Prop :=
  forall sessionId ses,
    sessions st !! sessionId = Some ses -> ordered cfg (ses_messages ses).

End Core.

(** ** Sample inputs *)

(** An answer with status 200 whose body is not JSON. *)
Definition unparsable_200 : Response :=
  {| ok := true; status := 200; content_type := Some "text/html";
     json := Rejected (SyntaxError "Unexpected token < in JSON at position 0");
     text := Resolved "<html></html>" |}.

(** An answer without content. *)
Definition no_content_204 : Response :=
  {| ok := true; status := 204; content_type := None;
     json := Rejected (SyntaxError "Unexpected end of JSON input");
     text := Resolved "" |}.

(** The answer to a request for an unknown id. *)
Definition not_found_404 : Response :=
  {| ok := false; status := 404; content_type := Some "application/json";
     json := Resolved (JObj [("detail", JStr "Notebook not found")]);
     text := Resolved "Notebook not found" |}.

Module Sample.

(** A configuration whose assistant answers every prompt, and one whose
    assistant always fails with a permanent error. *)
Definition answering : Core.Config :=
  {| Core.extract := fun _ => Core.NormalizedText "Hello world.";
     Core.generate := fun _ _ => Core.GeneratedText "The notebook has no sources yet.";
     Core.select := fun _ _ _ _ => Some [];
     Core.transformations :=
       {[ "summarize_text" :=
            {| Core.description := "Generates a concise summary of the source content.";
               Core.template := "Summarize:" |} ]};
     Core.retries := 2;
     Core.budget := 4;
     Core.now := fun n => pretty n;
     Core.time_of := fun _ => 0 |}.


Definition question : string := "What does the report say?".


(** One wire encoding that satisfies [Core.answers]. *)
Definition answer (r : Core.CoreError + ChatMessage.t * ChatMessage.t) : Response :=
  match r with
  | inr (userMessage, assistantMessage) =>
      {| ok := true; status := 200; content_type := Some "application/json";
         json := Resolved (JArr [ChatMessage.to_js userMessage;
                                 ChatMessage.to_js assistantMessage]);
         text := Rejected (TypeError "body stream already read") |}
  | inl _ =>
      {| ok := false; status := 502; content_type := Some "application/json";
         json := Resolved (JObj [("message", JStr "no assistant reply was produced")]);
         text := Rejected (TypeError "body stream already read") |}
  end.

(** A chat component with the question typed in. *)
Definition typing : ChatInterface.State :=
  ChatInterface.setNewMessageContent question ChatInterface.initial.


Definition user_message : ChatMessage.t :=
  {| ChatMessage.id := "0"; ChatMessage.chat_session_id := "0";
     ChatMessage.sender := Sender.user; ChatMessage.content := question;
     ChatMessage.timestamp := "1"; ChatMessage.order := Some 1 |}.

Definition assistant_message : ChatMessage.t :=
  {| ChatMessage.id := "1"; ChatMessage.chat_session_id := "0";
     ChatMessage.sender := Sender.ai;
     ChatMessage.content := "The notebook has no sources yet.";
     ChatMessage.timestamp := "2"; ChatMessage.order := Some 2 |}.

End Sample.

(** * Properties *)

(** ** The service layer *)
Example includes_json_with_charset :
  includes "application/json; charset=utf-8" "application/json" = true.
Proof. reflexivity. Qed.

Example trim_removes_outer_space : trim "  hello world   " = "hello world".
Proof. reflexivity. Qed.

Example blank_only_space : blank "   " = true /\ blank " a " = false.
Proof. split; reflexivity. Qed.

Example toString_of_array :
  js_toString (JArr [JNum 1; JNull; JStr "a"; JBool true]) = "1,,a,true".
Proof. reflexivity. Qed.

Example sort_by_is_stable :
  sort_by (fun a b : Z * string => b.1 - a.1)
    [(1, "a"); (3, "b"); (1, "c"); (3, "d"); (2, "e")]
  = [(3, "b"); (3, "d"); (2, "e"); (1, "a"); (1, "c")].
Proof. reflexivity. Qed.

Example handleApiResponse_no_content :
  handleApiResponse {| ok := true; status := 204; content_type := None;
                       json := Rejected (SyntaxError "Unexpected end of JSON input");
                       text := Resolved "" |}
  = Resolved JUndefined.
Proof. reflexivity. Qed.

Example handleApiResponse_json_message :
  handleApiResponse {| ok := false; status := 422;
                       content_type := Some "application/json";
                       json := Resolved (JObj [("message", JStr "Title cannot be empty.")]);
                       text := Resolved "" |}
  = Rejected (Error "Title cannot be empty.").
Proof. reflexivity. Qed.

Example handleApiResponse_unreadable_error :
  handleApiResponse {| ok := false; status := 500;
                       content_type := Some "application/json";
                       json := Rejected (SyntaxError "Unexpected token < in JSON at position 0");
                       text := Resolved "<html></html>" |}
  = Rejected (Error "HTTP error! status: 500 and failed to parse error response.").
Proof. reflexivity. Qed.


Lemma handleApiResponse_not_ok (response : Response) :
  ok response = false -> exists m, handleApiResponse response = Rejected (Error m).
Proof.
  intros Hok. unfold handleApiResponse. rewrite Hok. simpl. eauto.
Qed.

Lemma handleApiResponse_ok (response : Response) :
  ok response = true ->
  handleApiResponse response
  = if status response =? 204 then Resolved JUndefined else json response.
Proof.
  intros Hok. unfold handleApiResponse. now rewrite Hok.
Qed.

(** C9, as stated, fails: an ok answer whose body is not JSON makes
    [handleApiResponse] reject, although [response.ok] is true. *)
Lemma handleApiResponse_rejects_ok_response :
  ok unparsable_200 = true /\
  handleApiResponse unparsable_200
  = Rejected (SyntaxError "Unexpected token < in JSON at position 0") /\
  ~ (is_rejected (handleApiResponse unparsable_200) = true <-> ok unparsable_200 = false).
Proof.
  split; [reflexivity |]. split; [reflexivity |].
  intros [H _]. specialize (H eq_refl). discriminate H.
Qed.

(** C9, amended: [handleApiResponse] rejects with an [Error] whenever the
    response is not ok; an ok response with status 204 resolves to
    [undefined] whatever its body does; every other ok response yields
    [response.json()], so it resolves to the parsed body when the body
    parses and rejects with the parse error otherwise.  It rejects exactly
    when the response is not ok or is an ok, non-204 response whose body does
    not parse. *)
Theorem handleApiResponse_outcome (response : Response) :
  (ok response = false -> exists m, handleApiResponse response = Rejected (Error m)) /\
  (ok response = true -> status response = 204 ->
   handleApiResponse response = Resolved JUndefined) /\
  (ok response = true -> status response <> 204 ->
   handleApiResponse response = json response) /\
  (is_rejected (handleApiResponse response) = true <->
   ok response = false \/
   (status response <> 204 /\ is_rejected (json response) = true)).
Proof.
  split; [apply handleApiResponse_not_ok |].
  split.
  { intros Hok H204. rewrite handleApiResponse_ok by assumption.
    now rewrite H204. }
  split.
  { intros Hok H204. rewrite handleApiResponse_ok by assumption.
    destruct (Z.eqb_spec (status response) 204); [contradiction | reflexivity]. }
  destruct (ok response) eqn:Hok.
  - rewrite handleApiResponse_ok by assumption.
    destruct (Z.eqb_spec (status response) 204) as [E | E]; simpl.
    + split; [discriminate |]. intros [H | [H _]]; [discriminate | contradiction].
    + split; [intros H; right; split; assumption |].
      intros [H | [_ H]]; [discriminate | assumption].
  - destruct (handleApiResponse_not_ok response Hok) as [m ->]. simpl.
    split; [intros _; now left | reflexivity].
Qed.

(** X1: the message of the [Error] a response that is not ok is turned into:
    the [message] of a JSON error body when it is a non-empty string, the
    text of any other body when it is not empty, "HTTP error! status: N"
    when the body offers neither, and that text followed by " and failed to
    parse error response." when the body cannot be read. *)
Theorem handleApiResponse_error_message (response : Response) :
  ok response = false ->
  (forall props m,
     is_json response = true -> json response = Resolved (JObj props) ->
     assoc "message" props = JStr m -> m <> "" ->
     handleApiResponse response = Rejected (Error m)) /\
  (forall props,
     is_json response = true -> json response = Resolved (JObj props) ->
     assoc "message" props = JUndefined ->
     handleApiResponse response = Rejected (Error (http_error response))) /\
  (forall t,
     is_json response = false -> text response = Resolved t ->
     handleApiResponse response
     = Rejected (Error (if String.eqb t "" then http_error response else t))) /\
  (forall e,
     (if is_json response then json response = Rejected e
      else text response = Rejected e) ->
     handleApiResponse response
     = Rejected (Error (http_error response +:+ " and failed to parse error response."))).
Proof.
  intros Hok. unfold handleApiResponse. rewrite Hok. simpl.
  repeat split.
  - intros props m -> -> Hm Hne. simpl. rewrite Hm. unfold js_or. simpl.
    destruct (String.eqb_spec m ""); [contradiction | reflexivity].
  - intros props -> -> Hm. simpl. rewrite Hm. reflexivity.
  - intros t -> ->. simpl. unfold js_or. simpl.
    destruct (String.eqb_spec t "") as [-> | Hne].
    + unfold http_error. reflexivity.
    + destruct (String.eqb_spec t ""); [contradiction | reflexivity].
  - intros e He. destruct (is_json response); rewrite He; reflexivity.
Qed.

Lemma handleApiResponse_error_message_witness :
  handleApiResponse not_found_404 = Rejected (Error "HTTP error! status: 404").
Proof.
  exact (proj1 (proj2 (handleApiResponse_error_message not_found_404 eq_refl))
           [("detail", JStr "Notebook not found")] eq_refl eq_refl eq_refl).
Defined.

(** C7, as stated, fails: asked for an unknown notebook id (the server
    answers 404), [fetchNotebookById] resolves to [undefined]; no error
    reaches the caller. *)
Lemma fetchNotebookById_unknown_id_resolves :
  fetchNotebookById (fun _ => Resolved not_found_404) "notebook:unknown"
  = Resolved JUndefined /\
  is_rejected (fetchNotebookById (fun _ => Resolved not_found_404) "notebook:unknown")
  = false.
Proof. split; reflexivity. Qed.

(** C7, amended: [fetchNotebookById] answers a 404 by resolving to
    [undefined], which its caller turns into the message "Notebook not
    found."; any other answer that is not ok rejects with an [Error] that
    propagates to the caller, and so does a 404 answer to the fetches that
    list the sources, notes, chat sessions, chat messages and tasks. *)
Theorem fetch_unknown_id (fetch : Fetch) (id : string) (response : Response)
    (st : NotebookDetail.State) :
  (forall request, fetch request = Resolved response) ->
  ok response = false ->
  (status response = 404 ->
   fetchNotebookById fetch id = Resolved JUndefined /\
   (String.eqb id "" = false ->
    NotebookDetail.error (NotebookDetail.loadNotebookDetails fetch id st)
    = Some "Notebook not found.")) /\
  (status response <> 404 ->
   exists m, fetchNotebookById fetch id = Rejected (Error m)) /\
  (exists m,
     fetchSourcesByNotebookId fetch id = Rejected (Error m) /\
     fetchNotesByNotebookId fetch id = Rejected (Error m) /\
     getChatSessions fetch id = Rejected (Error m) /\
     getChatMessages fetch id = Rejected (Error m) /\
     fetchTasksByNotebookId fetch id = Rejected (Error m)).
Proof.
  intros Hfetch Hok.
  destruct (handleApiResponse_not_ok response Hok) as [m Hm].
  split; [| split].
  - intros H404.
    assert (Hres : fetchNotebookById fetch id = Resolved JUndefined).
    { unfold fetchNotebookById. rewrite Hfetch. simpl. now rewrite H404. }
    split; [exact Hres |].
    intros Hid. unfold NotebookDetail.loadNotebookDetails.
    now rewrite Hid, Hres.
  - intros H404. exists m. unfold fetchNotebookById. rewrite Hfetch. simpl.
    destruct (Z.eqb_spec (status response) 404); [contradiction |].
    now rewrite Hm.
  - exists m.
    unfold fetchSourcesByNotebookId, fetchNotesByNotebookId, getChatSessions,
      getChatMessages, fetchTasksByNotebookId.
    rewrite !Hfetch. simpl. now rewrite Hm.
Qed.

Lemma fetch_unknown_id_witness :
  (fetchNotebookById (fun _ => Resolved not_found_404) "notebook:unknown"
   = Resolved JUndefined) /\
  (exists m, getChatMessages (fun _ => Resolved not_found_404) "notebook:unknown"
             = Rejected (Error m)).
Proof.
  pose proof (fetch_unknown_id (fun _ => Resolved not_found_404) "notebook:unknown"
                not_found_404
                {| NotebookDetail.notebook := JNull; NotebookDetail.loading := true;
                   NotebookDetail.error := None |}
                (fun _ => eq_refl) eq_refl) as [H1 [_ [m H3]]].
  split.
  - exact (proj1 (H1 eq_refl)).
  - exists m. exact (proj1 (proj2 (proj2 (proj2 H3)))).
Defined.

(** ** The task list *)

(** C10: the successor [handleToggleStatus] computes sends todo to
    in_progress, in_progress to completed and completed to todo; it stays
    within the three statuses, and toggling a task three times brings its
    status back. *)
Theorem newStatus_cycles (task : Task.t) :
  (Task.status task = TaskStatus.todo ->
   TaskList.newStatus task = TaskStatus.in_progress) /\
  (Task.status task = TaskStatus.in_progress ->
   TaskList.newStatus task = TaskStatus.completed) /\
  (Task.status task = TaskStatus.completed ->
   TaskList.newStatus task = TaskStatus.todo) /\
  In (TaskList.newStatus task)
     [TaskStatus.todo; TaskStatus.in_progress; TaskStatus.completed] /\
  Task.status (TaskList.toggled (TaskList.toggled (TaskList.toggled task)))
  = Task.status task.
Proof.
  destruct task as [i n d s c u]. unfold TaskList.toggled, TaskList.newStatus. simpl.
  destruct s; simpl; repeat split; intros; try discriminate; try reflexivity; auto.
Qed.

(** The request [handleToggleStatus] sends carries the successor, whatever
    the server answers. *)
Lemma handleToggleStatus_requests_successor
    (getTime : string -> Z) (task : Task.t) (st : TaskList.State) (answer : Promise Task.t) :
  TaskList.handleToggleStatus
    (fun id s =>
       if String.eqb id (Task.id task) && bool_decide (s = TaskList.newStatus task)
       then answer else Rejected (Error "unexpected request"))
    getTime task st
  = TaskList.handleToggleStatus (fun _ _ => answer) getTime task st.
Proof.
  unfold TaskList.handleToggleStatus.
  rewrite String.eqb_refl, bool_decide_eq_true_2 by reflexivity. reflexivity.
Qed.

(** ** The data model of [types.ts] *)









(** ** Transformations *)


(** ** The chat orchestrator *)

Section Chat.
Context (cfg : Core.Config).

Lemma ordered_nil : Core.ordered cfg [].
Proof. split; constructor. Qed.

Lemma ordered_below_tail (msgs : list ChatMessage.t) (m : ChatMessage.t) :
  Core.ordered cfg msgs -> m ∈ msgs -> Core.msg_key cfg m < Core.next_order cfg msgs.
Proof.
  intros [_ Hsorted] Hin. unfold Core.next_order.
  destruct (last msgs) as [tail|] eqn:Hlast.
  - apply last_Some in Hlast as [front ->].
    apply elem_of_app in Hin as [Hin | Hin].
    + pose proof (StronglySorted_app_1_elem_of _ _ _ m tail Hsorted Hin) as Hlt.
      simpl in Hlt. specialize (Hlt ltac:(set_solver)). lia.
    + apply list_elem_of_singleton in Hin as ->. lia.
  - apply last_None in Hlast as ->. set_solver.
Qed.

Lemma ordered_append (sessionId : string) (who : Sender.t) (body : string)
    (ses : Core.Session) (n : nat) :
  Core.ordered cfg (Core.ses_messages ses) ->
  Core.ordered cfg (Core.ses_messages (Core.append_message cfg sessionId who body ses n).2).
Proof.
  intros Hord. pose proof Hord as [Hsome Hsorted]. simpl. split.
  - apply Forall_app. split; [exact Hsome |]. repeat constructor. simpl. eauto.
  - apply StronglySorted_app. split; [| split; [exact Hsorted | repeat constructor]].
    intros m1 m2 H1 H2. apply list_elem_of_singleton in H2 as ->.
    unfold Core.msg_key at 2. simpl. now apply ordered_below_tail.
Qed.

Lemma postMessage_success (sessionId content : string) (st st' : Core.Store)
    (u a : ChatMessage.t) :
  Core.postMessage cfg sessionId content st = (inr (u, a), st') ->
  exists ses,
    Core.sessions st !! sessionId = Some ses /\
    u = (Core.append_message cfg sessionId Sender.user content ses (Core.clock st)).1 /\
    ChatMessage.sender a = Sender.ai /\
    ChatMessage.chat_session_id a = sessionId /\
    ChatMessage.order a = Some (Core.next_order cfg (Core.ses_messages ses ++ [u])) /\
    Core.sessions st'
    = <[sessionId := {| Core.ses_notebook := Core.ses_notebook ses;
                        Core.ses_title := Core.ses_title ses;
                        Core.ses_messages := Core.ses_messages ses ++ [u; a] |}]>
        (Core.sessions st) /\
    Core.sources st' = Core.sources st.
Proof.
  unfold Core.postMessage. intros H.
  destruct (Core.sessions st !! sessionId) as [ses|] eqn:Hses; [| discriminate H].
  simpl in H.
  destruct (Core.generate_with_retry cfg _) as [reply | class reason]; [| discriminate H].
  injection H as <- <- <-. exists ses. simpl.
  repeat split; try reflexivity.
  rewrite insert_insert_eq, <- app_assoc. reflexivity.
Qed.


Lemma fire_sessions (id : string) (e : Core.Event) (d : option string)
    (st st' : Core.Store) :
  Core.fire id e d st = inr st' -> Core.sessions st' = Core.sessions st.
Proof.
  unfold Core.fire. intros H.
  repeat case_match; simplify_eq; reflexivity.
Qed.

Lemma settle_sessions (id : string) (st : Core.Store) :
  Core.sessions (Core.settle_extraction cfg id st).2 = Core.sessions st.
Proof.
  unfold Core.settle_extraction.
  repeat case_match; simplify_eq; simpl; try reflexivity;
    match goal with
    | H : Core.fire _ _ _ _ = inr _ |- _ => apply fire_sessions in H; rewrite H
    end; reflexivity.
Qed.

Lemma ensure_sessions (id : string) (st : Core.Store) :
  Core.sessions (Core.ensure_extracted cfg id st).2 = Core.sessions st.
Proof.
  unfold Core.ensure_extracted, Core.start_ingestion.
  repeat case_match; simplify_eq; simpl; try reflexivity;
    rewrite ?settle_sessions; try reflexivity;
    match goal with
    | H : Core.fire _ _ _ _ = inr _ |- _ => apply fire_sessions in H; rewrite H
    end; reflexivity.
Qed.

Lemma run_sessions (id name : string) (params : list (string * string)) (st : Core.Store) :
  Core.sessions (Core.run cfg id name params st).2 = Core.sessions st.
Proof.
  unfold Core.run.
  pose proof (ensure_sessions id st) as Hens.
  destruct (Core.ensure_extracted cfg id st) as [[e | content] st1]; simpl in *;
    [exact Hens |].
  repeat case_match; simplify_eq; simpl; try exact Hens;
    match goal with
    | H : Core.fire _ _ _ _ = inr _ |- _ => apply fire_sessions in H; rewrite H
    end; exact Hens.
Qed.

Lemma apply_ordered (st : Core.Store) (op : Core.Op) :
  Core.sessions_ordered cfg st -> Core.sessions_ordered cfg (Core.apply cfg st op).
Proof.
  intros Hinv sid ses. destruct op; simpl.
  - apply Hinv.
  - unfold Core.start_ingestion. destruct (Core.fire _ _ _ _) eqn:E; simpl; [apply Hinv |].
    rewrite (fire_sessions _ _ _ _ _ E). apply Hinv.
  - rewrite settle_sessions. apply Hinv.
  - unfold Core.retry. destruct (Core.fire _ _ _ _) eqn:E; simpl; [apply Hinv |].
    rewrite (fire_sessions _ _ _ _ _ E). apply Hinv.
  - rewrite run_sessions. apply Hinv.
  - intros H. apply lookup_insert_Some in H as [[_ <-] | [_ H]].
    + apply ordered_nil.
    + exact (Hinv _ _ H).
  - destruct (Core.postMessage cfg sessionId content st) as [[e | [u a]] st'] eqn:E; simpl.
    + unfold Core.postMessage in E.
      destruct (Core.sessions st !! sessionId) as [ses0|] eqn:Hses;
        [| injection E as <- <-; apply Hinv].
      simpl in E.
      destruct (Core.generate_with_retry cfg _); [discriminate E |].
      injection E as <- <-. simpl. intros H.
      apply lookup_insert_Some in H as [[_ <-] | [_ H]].
      * apply (ordered_append sessionId Sender.user content ses0 (Core.clock st)).
        exact (Hinv _ _ Hses).
      * exact (Hinv _ _ H).
    + apply postMessage_success in E as (ses0 & Hses & -> & _ & _ & Ha & -> & _).
      intros H. apply lookup_insert_Some in H as [[_ <-] | [_ H]]; [| exact (Hinv _ _ H)].
      pose proof (ordered_append sessionId Sender.user content ses0 (Core.clock st)
                    (Hinv _ _ Hses)) as Hu.
      set (um := (Core.append_message cfg sessionId Sender.user content ses0
                    (Core.clock st)).1) in *.
      change (Core.ordered cfg (Core.ses_messages ses0 ++ [um])%list) in Hu.
      change (Core.ordered cfg (Core.ses_messages ses0 ++ [um; a])%list).
      replace (Core.ses_messages ses0 ++ [um; a])%list
        with ((Core.ses_messages ses0 ++ [um]) ++ [a])%list
        by (rewrite <- app_assoc; reflexivity).
      pose proof Hu as [Hsome Hsorted].
      split.
      * apply Forall_app. split; [exact Hsome |]. repeat constructor. rewrite Ha. eauto.
      * apply StronglySorted_app. split; [| split; [exact Hsorted | repeat constructor]].
        intros m1 m2 H1 H2. apply list_elem_of_singleton in H2 as ->.
        unfold Core.msg_key at 2. rewrite Ha.
        apply ordered_below_tail; [exact Hu | exact H1].
Qed.

Lemma after_ordered (history : list Core.Op) : Core.sessions_ordered cfg (Core.after cfg history).
Proof.
  unfold Core.after. induction history as [| op history IH] using rev_ind.
  - intros sid ses H. simpl in H. rewrite lookup_empty in H. discriminate H.
  - rewrite foldl_app. simpl. now apply apply_ordered.
Qed.

End Chat.

Lemma StronglySorted_lookup {A} (R : A -> A -> Prop) (l : list A) (i j : nat) (a b : A) :
  StronglySorted R l -> (i < j)%nat -> l !! i = Some a -> l !! j = Some b -> R a b.
Proof.
  intros Hsorted. revert i j.
  induction Hsorted as [| x l Hsorted IH Hall]; intros i j Hij Hi Hj.
  - rewrite lookup_nil in Hi. discriminate Hi.
  - destruct j as [| j]; [lia |]. simpl in Hj.
    destruct i as [| i]; simpl in Hi.
    + injection Hi as <-. rewrite Forall_forall in Hall. apply Hall.
      eapply list_elem_of_lookup_2. exact Hj.
    + apply (IH i j); [lia | assumption | assumption].
Qed.



(** X2: [handleSendMessage] sends nothing and leaves the component as it is
    when the typed text is blank or no session is selected. *)
Theorem handleSendMessage_guard (fetch : Fetch) (sessionId : string)
    (ui : ChatInterface.State) :
  blank (ChatInterface.newMessageContent ui) = true \/ sessionId = "" ->
  ChatInterface.handleSendMessage fetch sessionId ui = ChatInterface.Mounted ui.
Proof.
  intros [Hblank | ->]; unfold ChatInterface.handleSendMessage.
  - now rewrite Hblank.
  - simpl. now rewrite orb_true_r.
Qed.

Lemma handleSendMessage_guard_witness :
  blank "  " = true /\
  ChatInterface.handleSendMessage (fun _ => Resolved not_found_404) "chat_session:1"
    (ChatInterface.setNewMessageContent "  " ChatInterface.initial)
  = ChatInterface.Mounted (ChatInterface.setNewMessageContent "  " ChatInterface.initial).
Proof.
  split; [reflexivity |].
  exact (handleSendMessage_guard (fun _ => Resolved not_found_404) "chat_session:1"
           (ChatInterface.setNewMessageContent "  " ChatInterface.initial)
           (or_introl eq_refl)).
Defined.





(** After a failed post, loading the session again shows the user message
    the server kept. *)
Lemma loadMessages_shows_kept_message (fetch : Fetch) (sessionId : string)
    (response : Response) (ui : ChatInterface.State) (msgs : list ChatMessage.t)
    (st : Core.Store) :
  String.eqb sessionId "" = false ->
  Core.listMessages sessionId st = inr msgs ->
  (forall request, fetch request = Resolved response) ->
  ok response = true -> status response <> 204 ->
  json response = Resolved (JArr (map ChatMessage.to_js msgs)) ->
  ChatInterface.messages (ChatInterface.loadMessages fetch sessionId ui)
  = JArr (map ChatMessage.to_js msgs).
Proof.
  intros Hsid _ Hfetch Hok H204 Hjson.
  unfold ChatInterface.loadMessages, getChatMessages. rewrite Hsid, Hfetch. simpl.
  rewrite handleApiResponse_ok by assumption.
  destruct (Z.eqb_spec (status response) 204); [contradiction |].
  rewrite Hjson. reflexivity.
Qed.

(** C4: after any history of requests, the messages of a session, in the
    sequence they are retrieved, increase strictly by
    (order ?? timestamp, insertion sequence), and no two of them carry the
    same order value: every message has an explicit order value of its own. *)
Theorem messages_strictly_ordered (cfg : Core.Config) (history : list Core.Op)
    (sessionId : string) (msgs : list ChatMessage.t) :
  Core.listMessages sessionId (Core.after cfg history) = inr msgs ->
  (forall i j ki kj,
     (i < j)%nat ->
     Core.retrieval_keys cfg msgs !! i = Some ki ->
     Core.retrieval_keys cfg msgs !! j = Some kj ->
     Core.key_lt ki kj) /\
  (forall i j mi mj,
     i <> j -> msgs !! i = Some mi -> msgs !! j = Some mj ->
     is_Some (ChatMessage.order mi) /\ ChatMessage.order mi <> ChatMessage.order mj).
Proof.
  unfold Core.listMessages. intros H.
  destruct (Core.sessions (Core.after cfg history) !! sessionId) as [ses|] eqn:Hses;
    [| discriminate H].
  injection H as <-.
  destruct (after_ordered cfg history sessionId ses Hses) as [Hsome Hsorted].
  assert (Hkeys : forall i j mi mj, (i < j)%nat ->
            Core.ses_messages ses !! i = Some mi -> Core.ses_messages ses !! j = Some mj ->
            Core.msg_key cfg mi < Core.msg_key cfg mj).
  { intros i j mi mj Hij Hi Hj.
    exact (StronglySorted_lookup _ _ i j mi mj Hsorted Hij Hi Hj). }
  split.
  - intros i j ki kj Hij Hi Hj. unfold Core.retrieval_keys in Hi, Hj.
    rewrite list_lookup_imap in Hi, Hj.
    destruct (Core.ses_messages ses !! i) as [mi|] eqn:Emi; [| discriminate Hi].
    destruct (Core.ses_messages ses !! j) as [mj|] eqn:Emj; [| discriminate Hj].
    simpl in Hi, Hj. injection Hi as <-. injection Hj as <-.
    left. simpl. exact (Hkeys i j mi mj Hij Emi Emj).
  - intros i j mi mj Hij Hi Hj.
    rewrite Forall_forall in Hsome.
    pose proof (Hsome mi (list_elem_of_lookup_2 _ _ _ Hi)) as [oi Hoi].
    pose proof (Hsome mj (list_elem_of_lookup_2 _ _ _ Hj)) as [oj Hoj].
    split; [eauto |]. rewrite Hoi, Hoj. intros Heq. injection Heq as Heq.
    assert (Hlt : Core.msg_key cfg mi < Core.msg_key cfg mj \/
                  Core.msg_key cfg mj < Core.msg_key cfg mi).
    { destruct (Nat.lt_total i j) as [Hlt | [Heq' | Hgt]]; [left | contradiction | right].
      - exact (Hkeys i j mi mj Hlt Hi Hj).
      - exact (Hkeys j i mj mi Hgt Hj Hi). }
    unfold Core.msg_key in Hlt. rewrite Hoi, Hoj in Hlt. lia.
Qed.

Lemma messages_strictly_ordered_witness :
  Core.listMessages "0"
    (Core.after Sample.answering
       [Core.CreateSession "notebook:1" None; Core.PostMessage "0" Sample.question])
  = inr [Sample.user_message; Sample.assistant_message] /\
  Core.key_lt (1, 0%nat) (2, 1%nat).
Proof.
  assert (Hlist :
    Core.listMessages "0"
      (Core.after Sample.answering
         [Core.CreateSession "notebook:1" None; Core.PostMessage "0" Sample.question])
    = inr [Sample.user_message; Sample.assistant_message])
    by (vm_compute; reflexivity).
  split; [exact Hlist |].
  exact (proj1 (messages_strictly_ordered Sample.answering _ "0" _ Hlist)
           0%nat 1%nat (1, 0%nat) (2, 1%nat) ltac:(lia) eq_refl eq_refl).
Defined.

(** ** The transformation executor behind [runSourceTransformation] *)

Lemma run_cached (cfg : Core.Config) (id name : string) (params : list (string * string))
    (st : Core.Store) (r : Core.SourceRec) (content out : string) (t : Core.Transformation) :
  Core.sources st !! id = Some r ->
  Core.src_content r = Some content ->
  Core.src_status r = Core.processed ->
  Core.transformations cfg !! name = Some t ->
  Core.generate_with_retry cfg (Core.TransformPrompt content (Core.template t) params)
  = Core.GeneratedText out ->
  Core.run cfg id name params st
  = (inr (Block out),
     Core.set_source id
       (Core.with_status Core.processed (Core.src_detail r)
          (Core.with_artifact name (Block out) r)) st).
Proof.
  intros Hr Hcontent Hstatus Ht Hgen.
  unfold Core.run, Core.ensure_extracted. rewrite Hr, Hcontent, Ht, Hgen, Hr.
  unfold Core.fire. simpl. rewrite lookup_insert_eq. simpl. rewrite Hstatus. simpl.
  unfold Core.set_source. simpl. rewrite insert_insert_eq. reflexivity.
Qed.

(** On the server side of C5: a second successful run of the same
    transformation on an extracted Source overwrites the artifact stored
    under its name; the mapping keeps its size and holds the second result. *)
Lemma run_twice_replaces (cfg : Core.Config) (id name : string)
    (p1 p2 : list (string * string)) (st : Core.Store) (r : Core.SourceRec)
    (content out1 out2 : string) (t : Core.Transformation) :
  Core.sources st !! id = Some r ->
  Core.src_content r = Some content ->
  Core.src_status r = Core.processed ->
  Core.transformations cfg !! name = Some t ->
  Core.generate_with_retry cfg (Core.TransformPrompt content (Core.template t) p1)
  = Core.GeneratedText out1 ->
  Core.generate_with_retry cfg (Core.TransformPrompt content (Core.template t) p2)
  = Core.GeneratedText out2 ->
  exists r1 r2,
    Core.sources (Core.run cfg id name p1 st).2 !! id = Some r1 /\
    Core.sources (Core.run cfg id name p2 (Core.run cfg id name p1 st).2).2 !! id = Some r2 /\
    Core.src_artifacts r1 = <[name := Block out1]> (Core.src_artifacts r) /\
    Core.src_artifacts r2 = <[name := Block out2]> (Core.src_artifacts r) /\
    Core.src_artifacts r2 !! name = Some (Block out2) /\
    size (Core.src_artifacts r2) = size (Core.src_artifacts r1).
Proof.
  intros Hr Hcontent Hstatus Ht Hgen1 Hgen2.
  rewrite (run_cached cfg id name p1 st r content out1 t) by assumption. simpl.
  set (r1 := Core.with_status Core.processed (Core.src_detail r)
               (Core.with_artifact name (Block out1) r)).
  rewrite (run_cached cfg id name p2 _ r1 content out2 t);
    [| simpl; apply lookup_insert_eq | assumption | reflexivity | assumption | assumption].
  simpl. exists r1, (Core.with_status Core.processed (Core.src_detail r1)
                       (Core.with_artifact name (Block out2) r1)).
  rewrite !lookup_insert_eq. simpl.
  repeat split; try reflexivity.
  - apply insert_insert_eq.
  - apply lookup_insert_eq.
  - rewrite insert_insert_eq.
    destruct (Core.src_artifacts r !! name) as [old|] eqn:Hold.
    + rewrite !map_size_insert_Some; eauto.
    + rewrite !map_size_insert_None; auto.
Qed.

Lemma transition_edges (a b : Core.Status) :
  Core.edge a b <->
  In (a, b) [(Core.pending, Core.processing); (Core.processing, Core.processed);
             (Core.processing, Core.error); (Core.error, Core.processing);
             (Core.processed, Core.processed)].
Proof.
  unfold Core.edge. split.
  - intros [e He]. destruct a, e; simpl in He; try discriminate He;
      injection He as <-; simpl; tauto.
  - simpl. intros H.
    repeat (destruct H as [H | H]; [injection H as <- <- |]); try contradiction.
    + now exists Core.StartIngestion.
    + now exists Core.ExtractionSucceeded.
    + now exists Core.ExtractionFailure.
    + now exists Core.RetryRequested.
    + now exists Core.TransformationRun.
Qed.

(** * More of the client *)

(** ** Sorting, as the task list uses it *)

Lemma insert_by_perm {A} (cmp : A -> A -> Z) (x : A) (l : list A) :
  insert_by cmp x l ≡ₚ x :: l.
Proof.
  induction l as [| y rest IH]; simpl; [reflexivity |].
  destruct (cmp x y <=? 0); [reflexivity |].
  rewrite IH. apply Permutation_swap.
Qed.

Lemma sort_by_perm {A} (cmp : A -> A -> Z) (l : list A) : sort_by cmp l ≡ₚ l.
Proof.
  induction l as [| x rest IH]; simpl; [reflexivity |].
  unfold sort_by in *. simpl. rewrite insert_by_perm, IH. reflexivity.
Qed.



#[local] Arguments sort_by : simpl never.


(** ** The task list *)


(** X4: when the server confirms a deletion, [handleDeleteTask] removes every
    task with that id and keeps every other task, each as often as before;
    when the deletion fails, the list is untouched and the failure's message
    is shown. *)
Theorem handleDeleteTask_removes (removeTask : string -> Promise unit)
    (getTime : string -> Z) (taskId : string) (p : TaskList.Page) :
  match removeTask taskId with
  | Resolved _ =>
      TaskList.tasks (TaskList.shown (TaskList.handleDeleteTask removeTask getTime taskId p))
      ≡ₚ filter (fun t => Task.id t <> taskId) (TaskList.tasks (TaskList.shown p)) /\
      (forall t,
         t ∈ TaskList.tasks
               (TaskList.shown (TaskList.handleDeleteTask removeTask getTime taskId p))
         <-> t ∈ TaskList.tasks (TaskList.shown p) /\ Task.id t <> taskId) /\
      TaskList.error (TaskList.shown (TaskList.handleDeleteTask removeTask getTime taskId p))
      = None
  | Rejected err =>
      TaskList.tasks (TaskList.shown (TaskList.handleDeleteTask removeTask getTime taskId p))
      = TaskList.tasks (TaskList.shown p) /\
      TaskList.error (TaskList.shown (TaskList.handleDeleteTask removeTask getTime taskId p))
      = Some (message err)
  end.
Proof.
  unfold TaskList.handleDeleteTask. simpl.
  destruct (removeTask taskId) as [[] | err]; simpl; [| split; reflexivity].
  split; [apply sort_by_perm |]. split; [| reflexivity].
  intros t. rewrite sort_by_perm, list_elem_of_filter. tauto.
Qed.

(** X5: [handleAddTask] sends nothing and changes nothing when the typed
    description is blank; when the server creates the task, the list is the
    old list with the new task added and the input is cleared; when creation
    fails, list and input stay and the failure's message is shown. *)
Theorem handleAddTask_outcome (createTodo : string -> string -> Promise Task.t)
    (getTime : string -> Z) (notebookId : string) (p : TaskList.Page) :
  (blank (TaskList.newTaskDescription p) = true ->
   TaskList.handleAddTask createTodo getTime notebookId p = p) /\
  (blank (TaskList.newTaskDescription p) = false ->
   match createTodo notebookId (TaskList.newTaskDescription p) with
   | Resolved newTask =>
       TaskList.tasks (TaskList.shown (TaskList.handleAddTask createTodo getTime notebookId p))
       ≡ₚ newTask :: TaskList.tasks (TaskList.shown p) /\
       TaskList.newTaskDescription (TaskList.handleAddTask createTodo getTime notebookId p)
       = "" /\
       TaskList.error (TaskList.shown (TaskList.handleAddTask createTodo getTime notebookId p))
       = None
   | Rejected err =>
       TaskList.tasks (TaskList.shown (TaskList.handleAddTask createTodo getTime notebookId p))
       = TaskList.tasks (TaskList.shown p) /\
       TaskList.newTaskDescription (TaskList.handleAddTask createTodo getTime notebookId p)
       = TaskList.newTaskDescription p /\
       TaskList.error (TaskList.shown (TaskList.handleAddTask createTodo getTime notebookId p))
       = Some (message err)
   end).
Proof.
  unfold TaskList.handleAddTask. split; intros Hblank; rewrite Hblank; [reflexivity |].
  destruct (createTodo _ _) as [newTask | err]; simpl.
  - split; [apply sort_by_perm | split; reflexivity].
  - repeat split; reflexivity.
Qed.

Lemma replace_by_id_length (taskId : string) (updated : Task.t) (l : list Task.t) :
  length (map (fun t => if String.eqb (Task.id t) taskId then updated else t) l)
  = length l.
Proof. apply length_map. Qed.

(** X6: [handleUpdateDescription] sends nothing and stays in edit mode when
    the edited text is blank.  When the server accepts the update, every
    task with that id is replaced by the server's copy, every other task is
    kept, the number of tasks is unchanged and edit mode ends; when it
    fails, the list, the edited task and the edited text all stay. *)
Theorem handleUpdateDescription_outcome
    (updateDescription : string -> string -> Promise Task.t) (getTime : string -> Z)
    (taskId : string) (p : TaskList.Page) :
  (blank (TaskList.editingText p) = true ->
   TaskList.handleUpdateDescription updateDescription getTime taskId p = p) /\
  (blank (TaskList.editingText p) = false ->
   match updateDescription taskId (TaskList.editingText p) with
   | Resolved updated =>
       let p' := TaskList.handleUpdateDescription updateDescription getTime taskId p in
       length (TaskList.tasks (TaskList.shown p'))
       = length (TaskList.tasks (TaskList.shown p)) /\
       (forall t, t ∈ TaskList.tasks (TaskList.shown p) -> Task.id t <> taskId ->
                  t ∈ TaskList.tasks (TaskList.shown p')) /\
       (forall t, t ∈ TaskList.tasks (TaskList.shown p') ->
                  t = updated \/ (t ∈ TaskList.tasks (TaskList.shown p) /\ Task.id t <> taskId)) /\
       TaskList.editingTaskId p' = None /\ TaskList.editingText p' = ""
   | Rejected err =>
       let p' := TaskList.handleUpdateDescription updateDescription getTime taskId p in
       TaskList.tasks (TaskList.shown p') = TaskList.tasks (TaskList.shown p) /\
       TaskList.editingTaskId p' = TaskList.editingTaskId p /\
       TaskList.editingText p' = TaskList.editingText p /\
       TaskList.error (TaskList.shown p') = Some (message err)
   end).
Proof.
  unfold TaskList.handleUpdateDescription.
  split; intros Hblank; rewrite Hblank; [reflexivity |].
  destruct (updateDescription _ _) as [updated | err]; simpl; [| repeat split; reflexivity].
  split; [| split; [| split; [| split; reflexivity]]].
  - rewrite (Permutation_length (sort_by_perm _ _)). apply length_map.
  - intros t Hin Hid. rewrite sort_by_perm. apply list_elem_of_fmap.
    exists t. split; [| exact Hin].
    destruct (String.eqb_spec (Task.id t) taskId); [contradiction | reflexivity].
  - intros t Hin. rewrite sort_by_perm in Hin.
    apply list_elem_of_fmap in Hin as (t0 & -> & Hin).
    destruct (String.eqb_spec (Task.id t0) taskId); [now left | right; now split].
Qed.

(** X21: when the server accepts the new status, [handleToggleStatus]
    replaces every task that has the toggled task's id by the server's copy
    and keeps every other task, so the number of tasks is unchanged; when the
    update fails, the list is untouched and the failure's message is shown.
    The status it asks for is the successor of the task's status. *)
Theorem handleToggleStatus_outcome (updateTask : string -> TaskStatus.t -> Promise Task.t)
    (getTime : string -> Z) (task : Task.t) (st : TaskList.State) :
  let st' := TaskList.handleToggleStatus updateTask getTime task st in
  match updateTask (Task.id task) (TaskList.newStatus task) with
  | Resolved updated =>
      length (TaskList.tasks st') = length (TaskList.tasks st) /\
      (forall t, t ∈ TaskList.tasks st -> Task.id t <> Task.id task ->
                 t ∈ TaskList.tasks st') /\
      (forall t, t ∈ TaskList.tasks st' ->
                 t = updated \/ (t ∈ TaskList.tasks st /\ Task.id t <> Task.id task)) /\
      TaskList.error st' = None
  | Rejected err =>
      TaskList.tasks st' = TaskList.tasks st /\
      TaskList.error st' = Some (message err)
  end.
Proof.
  cbv zeta. unfold TaskList.handleToggleStatus.
  destruct (updateTask _ _) as [updated | err]; simpl; [| split; reflexivity].
  split; [| split; [| split; [| reflexivity]]].
  - rewrite (Permutation_length (sort_by_perm _ _)). apply length_map.
  - intros t Hin Hid. rewrite sort_by_perm. apply list_elem_of_fmap.
    exists t. split; [| exact Hin].
    destruct (String.eqb_spec (Task.id t) (Task.id task)); [contradiction | reflexivity].
  - intros t Hin. rewrite sort_by_perm in Hin.
    apply list_elem_of_fmap in Hin as (t0 & -> & Hin).
    destruct (String.eqb_spec (Task.id t0) (Task.id task)); [now left | right; now split].
Qed.

(** ** The rows of the source list *)

Lemma append_length (s1 s2 : string) :
  String.length (s1 +:+ s2) = (String.length s1 + String.length s2)%nat.
Proof. induction s1 as [| c s1 IH]; simpl; [reflexivity | now rewrite IH]. Qed.

Lemma substring0_length (n : nat) (s : string) :
  String.length (String.substring 0 n s) = Nat.min n (String.length s).
Proof.
  revert s. induction n as [| n IH]; intros [| c s]; simpl; try reflexivity.
  now rewrite IH.
Qed.

Lemma ellipsis_length (n : nat) (s : string) :
  (String.length (ellipsis n s) <= n + 3)%nat.
Proof.
  unfold ellipsis. rewrite append_length, substring0_length.
  destruct (n <? String.length s)%nat; simpl; lia.
Qed.

Lemma substring0_all (n : nat) (s : string) :
  (String.length s <= n)%nat -> String.substring 0 n s = s.
Proof.
  revert s. induction n as [| n IH]; intros [| c s] Hlen; simpl in *;
    try reflexivity; try lia.
  f_equal. apply IH. lia.
Qed.

Lemma append_empty_r (s : string) : s +:+ "" = s.
Proof.
  induction s as [| c s IH]; [reflexivity |].
  change (String c (s +:+ "") = String c s). now rewrite IH.
Qed.

Lemma ellipsis_short (n : nat) (s : string) :
  (String.length s <= n)%nat -> ellipsis n s = s.
Proof.
  intros Hlen. unfold ellipsis.
  destruct (Nat.ltb_spec n (String.length s)); [lia |].
  rewrite substring0_all by assumption. apply append_empty_r.
Qed.

Lemma ellipsis_nonempty (n : nat) (s : string) : s <> "" -> ellipsis (S n) s <> "".
Proof.
  intros Hs. destruct s as [| c s]; [contradiction |]. unfold ellipsis. simpl. discriminate.
Qed.

(** X7: the title a source row shows is never empty: it is the source's own
    title when that is not empty, otherwise the first 100 characters of its
    URL, file path or content (followed by "..." when cut), so at most 103
    characters, and "Untitled Source" when the source has none of these. *)
Theorem displayTitle_never_empty (source : Source.t) :
  SourceList.displayTitle source <> "" /\
  (forall t, Source.title source = Some t -> t <> "" -> SourceList.displayTitle source = t) /\
  (Source.title source = None \/ Source.title source = Some "" ->
   (String.length (SourceList.displayTitle source) <= 103)%nat /\
   (SourceList.mainIdentifier source = "" ->
    SourceList.displayTitle source = "Untitled Source") /\
   ((String.length (SourceList.mainIdentifier source) <= 100)%nat ->
    SourceList.mainIdentifier source <> "" ->
    SourceList.displayTitle source = SourceList.mainIdentifier source)).
Proof.
  unfold SourceList.displayTitle. split; [| split].
  - destruct (String.eqb_spec (default "" (Source.title source)) "") as [E | E]; simpl;
      [| exact E].
    destruct (String.eqb_spec (SourceList.mainIdentifier source) "") as [E' | E']; simpl;
      [discriminate | now apply ellipsis_nonempty].
  - intros t -> Ht. simpl.
    destruct (String.eqb_spec t ""); [contradiction | reflexivity].
  - intros Htitle.
    assert (E : default "" (Source.title source) = "") by (destruct Htitle as [-> | ->]; reflexivity).
    rewrite E. simpl.
    destruct (String.eqb_spec (SourceList.mainIdentifier source) "") as [E' | E']; simpl.
    + split; [simpl; lia |]. split; [reflexivity | intros _ H; contradiction].
    + split; [apply ellipsis_length |]. split; [intros H; contradiction |].
      intros Hlen _. now apply ellipsis_short.
Qed.

(** X8: the preview a source row shows is never empty: it is the content,
    cut to 100 characters and "..." when longer, whenever the source has
    content that is not blank. *)
Theorem contentPreview_never_empty (source : Source.t) :
  SourceList.contentPreview source <> "" /\
  (forall c, Source.content source = Some c -> blank c = false ->
             SourceList.contentPreview source = ellipsis 100 c /\
             (String.length (SourceList.contentPreview source) <= 103)%nat /\
             ((String.length c <= 100)%nat -> SourceList.contentPreview source = c)) /\
  (SourceList.has_content source = false ->
   SourceList.contentPreview source = SourceList.mainIdentifier source \/
   SourceList.contentPreview source = "No additional content preview available.").
Proof.
  unfold SourceList.contentPreview. split; [| split].
  - destruct (SourceList.has_content source) eqn:Hc.
    + unfold SourceList.has_content in Hc.
      destruct (Source.content source) as [c |]; [| discriminate Hc]. simpl.
      apply ellipsis_nonempty. intros ->. discriminate Hc.
    + destruct (String.eqb_spec (SourceList.mainIdentifier source) "") as [E | E]; simpl;
        [discriminate |].
      destruct (String.eqb (SourceList.mainIdentifier source) _); simpl;
        [discriminate | exact E].
  - intros c Hc Hblank. unfold SourceList.has_content. rewrite Hc, Hblank. simpl.
    split; [reflexivity |]. split; [apply ellipsis_length | apply ellipsis_short].
  - intros ->.
    destruct (negb _ && negb _); [now left | now right].
Qed.

(** ** The source view and the deletion of a source *)


(** X10: [handleConfirmDeleteSource] does nothing without a source to delete.
    When the server confirms, the confirmation and the source view close,
    no source stays selected, so no transformation can be sent for the
    deleted source, and the list is loaded again; when the deletion fails,
    the list, the view and the confirmation stay and the failure's message
    is shown. *)
Theorem handleConfirmDeleteSource_outcome (fetch : Fetch) (notebookId : string)
    (p : SourceList.Page) :
  (SourceList.sourceToDelete (SourceList.deletion p) = None ->
   SourceList.handleConfirmDeleteSource fetch notebookId p = p) /\
  (forall source,
     SourceList.sourceToDelete (SourceList.deletion p) = Some source ->
     let p' := SourceList.handleConfirmDeleteSource fetch notebookId p in
     match deleteSource fetch (Source.id source) with
     | Resolved _ =>
         SourceList.deletion p'
         = {| SourceList.sourceToDelete := None;
              SourceList.showDeleteConfirmModal := false;
              SourceList.isDeletingSource := false; SourceList.deleteError := None |} /\
         SourceList.showViewSourceModal p' = false /\
         SourceList.selectedSourceForView (SourceList.view p') = None /\
         (forall fetch', SourceList.handleRunTransformation fetch' (SourceList.view p')
                         = SourceList.view p') /\
         SourceList.listing p'
         = SourceList.loadSources fetch notebookId (SourceList.listing p)
     | Rejected err =>
         SourceList.listing p' = SourceList.listing p /\
         SourceList.view p' = SourceList.view p /\
         SourceList.showViewSourceModal p' = SourceList.showViewSourceModal p /\
         SourceList.sourceToDelete (SourceList.deletion p') = Some source /\
         SourceList.showDeleteConfirmModal (SourceList.deletion p')
         = SourceList.showDeleteConfirmModal (SourceList.deletion p) /\
         SourceList.deleteError (SourceList.deletion p') = Some (message err)
     end).
Proof.
  unfold SourceList.handleConfirmDeleteSource. split.
  - intros ->. reflexivity.
  - intros source ->. simpl.
    destruct (deleteSource fetch (Source.id source)) as [[] | err]; simpl;
      repeat split; reflexivity.
Qed.

(** X11: [handleAddSource] with blank content only raises the alert
    "Content/URL is required.": nothing is sent and nothing else changes.
    When the server accepts the source, the form is reset and closed and the
    list is loaded again; when it fails, the form stays as typed and "Failed
    to add source. Please try again." is shown. *)
Theorem handleAddSource_outcome (fetch : Fetch) (notebookId : string)
    (p : SourceList.Page) :
  (blank (SourceList.newSourceContent (SourceList.form p)) = true ->
   SourceList.handleAddSource fetch notebookId p
   = {| SourceList.listing := SourceList.listing p; SourceList.form := SourceList.form p;
        SourceList.deletion := SourceList.deletion p;
        SourceList.showViewSourceModal := SourceList.showViewSourceModal p;
        SourceList.view := SourceList.view p;
        SourceList.alerts := SourceList.alerts p ++ ["Content/URL is required."] |}) /\
  (blank (SourceList.newSourceContent (SourceList.form p)) = false ->
   let p' := SourceList.handleAddSource fetch notebookId p in
   SourceList.alerts p' = SourceList.alerts p /\
   SourceList.isAddingSource (SourceList.form p') = false /\
   match addSource fetch notebookId
           (SourceType.literal (SourceList.newSourceType (SourceList.form p)))
           (SourceList.newSourceContent (SourceList.form p))
           (JStr (SourceList.newSourceTitle (SourceList.form p))) with
   | Resolved _ =>
       SourceList.form p'
       = {| SourceList.showAddSourceModal := false;
            SourceList.newSourceType := SourceType.url;
            SourceList.newSourceContent := ""; SourceList.newSourceTitle := "";
            SourceList.isAddingSource := false |} /\
       (String.eqb notebookId "" = false ->
        match fetchSourcesByNotebookId fetch notebookId with
        | Resolved data =>
            SourceList.sources (SourceList.listing p') = data /\
            SourceList.error (SourceList.listing p') = None
        | Rejected _ =>
            SourceList.sources (SourceList.listing p')
            = SourceList.sources (SourceList.listing p) /\
            SourceList.error (SourceList.listing p') = Some "Failed to fetch sources."
        end)
   | Rejected _ =>
       SourceList.newSourceContent (SourceList.form p')
       = SourceList.newSourceContent (SourceList.form p) /\
       SourceList.newSourceTitle (SourceList.form p')
       = SourceList.newSourceTitle (SourceList.form p) /\
       SourceList.newSourceType (SourceList.form p')
       = SourceList.newSourceType (SourceList.form p) /\
       SourceList.showAddSourceModal (SourceList.form p')
       = SourceList.showAddSourceModal (SourceList.form p) /\
       SourceList.sources (SourceList.listing p')
       = SourceList.sources (SourceList.listing p) /\
       SourceList.error (SourceList.listing p')
       = Some "Failed to add source. Please try again."
   end).
Proof.
  unfold SourceList.handleAddSource. split; intros Hblank; rewrite Hblank; [reflexivity |].
  simpl. destruct (addSource _ _ _ _ _) as [v | err]; simpl.
  - repeat split. intros Hid. unfold SourceList.loadSources. rewrite Hid.
    destruct (fetchSourcesByNotebookId fetch notebookId); simpl; split; reflexivity.
  - repeat split; reflexivity.
Qed.

(** ** The service layer, continued *)

(** X12: no function of the service layer swallows or rewraps a failure of
    [fetch] itself (the network is down, the request is aborted): each one
    rejects with the very error [fetch] rejected with. *)
Theorem fetch_failure_propagates (e : JsError) (a b c : string) (v w x : JsValue) :
  let down : Fetch := fun _ => Rejected e in
  fetchNotebooks down = Rejected e /\
  fetchNotebookById down a = Rejected e /\
  createNotebook down a v = Rejected e /\
  fetchSourcesByNotebookId down a = Rejected e /\
  addSource down a b c v = Rejected e /\
  fetchNotesByNotebookId down a = Rejected e /\
  addNote down a b c = Rejected e /\
  updateNote down a b c = Rejected e /\
  deleteNote down a = Rejected e /\
  createChatSession down a v = Rejected e /\
  getChatSessions down a = Rejected e /\
  getChatMessages down a = Rejected e /\
  postChatMessage down a b = Rejected e /\
  deleteSource down a = Rejected e /\
  updateSource down a v = Rejected e /\
  runSourceTransformation down a b v = Rejected e /\
  fetchTasksByNotebookId down a = Rejected e /\
  createTask down a b v w x = Rejected e /\
  updateTask down a v = Rejected e /\
  deleteTask down a = Rejected e.
Proof. simpl. repeat split. Qed.

Lemma delete_after (response : Response) :
  (_ ← handleApiResponse response; mret tt)
  = match handleApiResponse response with
    | Resolved _ => Resolved tt
    | Rejected e => Rejected e
    end.
Proof. destruct (handleApiResponse response); reflexivity. Qed.

(** X13: [deleteNote], [deleteSource] and [deleteTask] succeed on an ok answer
    with status 204 and on an ok answer whose body parses as JSON, and
    reject on every answer that is not ok; an ok answer with another status
    and a body that does not parse (an empty 200, say) is reported as a
    failure, with the parse error. *)
Theorem delete_outcome (response : Response) (id : string) :
  let fetch : Fetch := fun _ => Resolved response in
  let same_outcome (p : Promise unit) :=
    deleteNote fetch id = p /\ deleteSource fetch id = p /\ deleteTask fetch id = p in
  (ok response = false -> exists m, same_outcome (Rejected (Error m))) /\
  (ok response = true -> status response = 204 -> same_outcome (Resolved tt)) /\
  (ok response = true -> status response <> 204 ->
   match json response with
   | Resolved _ => same_outcome (Resolved tt)
   | Rejected e => same_outcome (Rejected e)
   end).
Proof.
  cbv zeta. unfold deleteNote, deleteSource, deleteTask. simpl.
  rewrite !delete_after. split; [| split].
  - intros Hok. destruct (handleApiResponse_not_ok response Hok) as [m ->]. eauto.
  - intros Hok H204. rewrite handleApiResponse_ok by assumption.
    rewrite H204. simpl. auto.
  - intros Hok H204. rewrite handleApiResponse_ok by assumption.
    destruct (Z.eqb_spec (status response) 204); [contradiction |].
    destruct (json response); auto.
Qed.


(** ** The chat component, continued *)

(** X15: [loadMessages] does nothing without a session.  With one, it
    replaces the list by the server's answer and clears the error, or, when
    the request fails, keeps the list and shows "Failed to load messages.";
    either way the loading flag is off at the end, and loading twice against
    the same server is the same as loading once. *)
Theorem loadMessages_outcome (fetch : Fetch) (chatSessionId : string)
    (st : ChatInterface.State) :
  (chatSessionId = "" -> ChatInterface.loadMessages fetch chatSessionId st = st) /\
  (chatSessionId <> "" ->
   let st' := ChatInterface.loadMessages fetch chatSessionId st in
   ChatInterface.loadingMessages st' = false /\
   ChatInterface.newMessageContent st' = ChatInterface.newMessageContent st /\
   match getChatMessages fetch chatSessionId with
   | Resolved fetchedMessages =>
       ChatInterface.messages st' = fetchedMessages /\
       ChatInterface.messageError st' = None
   | Rejected _ =>
       ChatInterface.messages st' = ChatInterface.messages st /\
       ChatInterface.messageError st' = Some "Failed to load messages."
   end) /\
  ChatInterface.loadMessages fetch chatSessionId
    (ChatInterface.loadMessages fetch chatSessionId st)
  = ChatInterface.loadMessages fetch chatSessionId st.
Proof.
  unfold ChatInterface.loadMessages.
  destruct (String.eqb_spec chatSessionId "") as [-> | Hne].
  - split; [reflexivity |]. split; [intros H; contradiction | reflexivity].
  - split; [intros H; contradiction |].
    destruct (getChatMessages fetch chatSessionId); simpl; repeat split; reflexivity.
Qed.

(** X16: [handleSendMessage] relies on the answer to the POST being a list.
    An ok answer without content (status 204), which [postChatMessage]
    resolves to [undefined], makes the state updater throw a [TypeError]
    instead of adding a message. *)
Theorem handleSendMessage_needs_a_list (fetch : Fetch) (chatSessionId : string)
    (response : Response) (ui : ChatInterface.State) :
  blank (ChatInterface.newMessageContent ui) = false ->
  String.eqb chatSessionId "" = false ->
  (forall request, fetch request = Resolved response) ->
  ok response = true ->
  status response = 204 ->
  postChatMessage fetch chatSessionId (ChatInterface.newMessageContent ui)
  = Resolved JUndefined /\
  ChatInterface.handleSendMessage fetch chatSessionId ui
  = ChatInterface.Crashed (TypeError "responseMessages is not iterable").
Proof.
  intros Hblank Hid Hfetch Hok H204.
  assert (Hpost : postChatMessage fetch chatSessionId (ChatInterface.newMessageContent ui)
                  = Resolved JUndefined).
  { unfold postChatMessage. rewrite Hfetch. simpl.
    rewrite handleApiResponse_ok by assumption. now rewrite H204. }
  split; [exact Hpost |].
  unfold ChatInterface.handleSendMessage. rewrite Hblank, Hid. simpl.
  rewrite Hpost. unfold ChatInterface.appendMessages. simpl.
  destruct (spread (ChatInterface.messages ui)); reflexivity.
Qed.

Lemma handleSendMessage_needs_a_list_witness :
  ChatInterface.handleSendMessage (fun _ => Resolved no_content_204)
    "chat_session:1" Sample.typing
  = ChatInterface.Crashed (TypeError "responseMessages is not iterable").
Proof.
  assert (Hblank : blank (ChatInterface.newMessageContent Sample.typing) = false)
    by (vm_compute; reflexivity).
  exact (proj2 (handleSendMessage_needs_a_list (fun _ => Resolved no_content_204)
                  "chat_session:1" no_content_204 Sample.typing
                  Hblank eq_refl (fun _ => eq_refl) eq_refl eq_refl)).
Defined.

(** ** The note list *)

(** X17: [handleAddNote] validates before it sends: a blank title is reported
    as "Title is required." (also when the content is blank as well), a
    blank content as "Content is required."; in both cases nothing is sent
    and nothing else changes.  Otherwise, when the server accepts the note,
    the dialog closes and the list is loaded again; when it fails, the
    dialog stays open with what was typed, the list stays, and "Failed to
    add note. Please try again." is shown. *)
Theorem handleAddNote_outcome (fetch : Fetch) (notebookId : string) (st : NoteList.State) :
  let st' := NoteList.handleAddNote fetch notebookId st in
  let typed := NoteList.adding st in
  (blank (NoteList.newNoteTitle typed) = true ->
   st' = {| NoteList.listing := NoteList.listing st;
            NoteList.adding := NoteList.setAddNoteError (Some "Title is required.") typed;
            NoteList.editing := NoteList.editing st;
            NoteList.deleting := NoteList.deleting st |}) /\
  (blank (NoteList.newNoteTitle typed) = false ->
   blank (NoteList.newNoteContent typed) = true ->
   st' = {| NoteList.listing := NoteList.listing st;
            NoteList.adding := NoteList.setAddNoteError (Some "Content is required.") typed;
            NoteList.editing := NoteList.editing st;
            NoteList.deleting := NoteList.deleting st |}) /\
  (blank (NoteList.newNoteTitle typed) = false ->
   blank (NoteList.newNoteContent typed) = false ->
   NoteList.newNoteTitle (NoteList.adding st') = NoteList.newNoteTitle typed /\
   NoteList.newNoteContent (NoteList.adding st') = NoteList.newNoteContent typed /\
   NoteList.isAddingNote (NoteList.adding st') = false /\
   NoteList.editing st' = NoteList.editing st /\
   NoteList.deleting st' = NoteList.deleting st /\
   match addNote fetch notebookId (NoteList.newNoteTitle typed)
           (NoteList.newNoteContent typed) with
   | Resolved _ =>
       NoteList.showAddNoteModal (NoteList.adding st') = false /\
       NoteList.addNoteError (NoteList.adding st') = None /\
       NoteList.listing st' = NoteList.loadNotes fetch notebookId (NoteList.listing st)
   | Rejected _ =>
       NoteList.showAddNoteModal (NoteList.adding st') = NoteList.showAddNoteModal typed /\
       NoteList.addNoteError (NoteList.adding st')
       = Some "Failed to add note. Please try again." /\
       NoteList.listing st' = NoteList.listing st
   end).
Proof.
  cbv zeta. unfold NoteList.handleAddNote. split; [| split].
  - intros ->. reflexivity.
  - intros -> ->. reflexivity.
  - intros -> ->. destruct (addNote _ _ _ _); simpl; repeat split; reflexivity.
Qed.

Lemma handleUpdateNote_sends_only_valid (fetch : Fetch) (notebookId : string)
    (st : NoteList.State) :
  let st' := NoteList.handleUpdateNote fetch notebookId st in
  let edited := NoteList.editing st in
  NoteList.listing st' = NoteList.listing st \/
  (NoteList.listing st' = NoteList.loadNotes fetch notebookId (NoteList.listing st) /\
   NoteList.noteToEdit (NoteList.editing st') = None /\
   NoteList.showEditNoteModal (NoteList.editing st') = false /\
   exists note, NoteList.noteToEdit edited = Some note /\
                blank (NoteList.editNoteTitle edited) = false /\
                blank (NoteList.editNoteContent edited) = false /\
                is_rejected (updateNote fetch (Note.id note) (NoteList.editNoteTitle edited)
                               (NoteList.editNoteContent edited)) = false).
Proof.
  cbv zeta. unfold NoteList.handleUpdateNote.
  destruct (NoteList.noteToEdit (NoteList.editing st)) as [note |] eqn:Hnote; [| now left].
  destruct (blank (NoteList.editNoteTitle _)) eqn:Ht; [now left |].
  destruct (blank (NoteList.editNoteContent _)) eqn:Hc; [now left |].
  destruct (updateNote _ _ _ _) eqn:Hu; [| now left].
  right. simpl. repeat split. exists note. rewrite Hu. repeat split.
Qed.

Lemma handleUpdateNote_messages (fetch : Fetch) (notebookId : string) (st : NoteList.State) :
  let st' := NoteList.handleUpdateNote fetch notebookId st in
  let edited := NoteList.editing st in
  (NoteList.noteToEdit edited = None ->
   NoteList.editNoteError (NoteList.editing st') = Some "No note selected for editing.") /\
  (forall note, NoteList.noteToEdit edited = Some note ->
     (blank (NoteList.editNoteTitle edited) = true ->
      NoteList.editNoteError (NoteList.editing st') = Some "Title is required.") /\
     (blank (NoteList.editNoteTitle edited) = false ->
      blank (NoteList.editNoteContent edited) = true ->
      NoteList.editNoteError (NoteList.editing st') = Some "Content is required.") /\
     (blank (NoteList.editNoteTitle edited) = false ->
      blank (NoteList.editNoteContent edited) = false ->
      match updateNote fetch (Note.id note) (NoteList.editNoteTitle edited)
              (NoteList.editNoteContent edited) with
      | Resolved _ => NoteList.editNoteError (NoteList.editing st') = None
      | Rejected _ =>
          NoteList.editing st'
          = {| NoteList.showEditNoteModal := NoteList.showEditNoteModal edited;
               NoteList.noteToEdit := Some note;
               NoteList.editNoteTitle := NoteList.editNoteTitle edited;
               NoteList.editNoteContent := NoteList.editNoteContent edited;
               NoteList.isEditingNote := false;
               NoteList.editNoteError := Some "Failed to update note. Please try again." |}
      end)).
Proof.
  cbv zeta. unfold NoteList.handleUpdateNote. split.
  - intros ->. reflexivity.
  - intros note ->. split; [| split].
    + intros ->. reflexivity.
    + intros -> ->. reflexivity.
    + intros -> ->. destruct (updateNote _ _ _ _); reflexivity.
Qed.

(** X18: [handleUpdateNote] sends nothing unless a note is being edited and
    both edited fields are non-blank: it reports, in this order, "No note
    selected for editing.", "Title is required." and "Content is required.",
    and leaves the list alone; so a save after the edit dialog was closed
    changes no note.  The list is loaded again only after the server
    accepted the update, and then the dialog is closed and no note stays
    selected; when the update fails the dialog keeps the note and the edited
    text and shows "Failed to update note. Please try again.". *)
Theorem handleUpdateNote_outcome (fetch : Fetch) (notebookId : string) (st : NoteList.State) :
  let st' := NoteList.handleUpdateNote fetch notebookId st in
  let edited := NoteList.editing st in
  (NoteList.listing st' = NoteList.listing st \/
   (NoteList.listing st' = NoteList.loadNotes fetch notebookId (NoteList.listing st) /\
    NoteList.noteToEdit (NoteList.editing st') = None /\
    NoteList.showEditNoteModal (NoteList.editing st') = false /\
    exists note, NoteList.noteToEdit edited = Some note /\
                 blank (NoteList.editNoteTitle edited) = false /\
                 blank (NoteList.editNoteContent edited) = false /\
                 is_rejected (updateNote fetch (Note.id note) (NoteList.editNoteTitle edited)
                                (NoteList.editNoteContent edited)) = false)) /\
  (NoteList.noteToEdit edited = None ->
   NoteList.editNoteError (NoteList.editing st') = Some "No note selected for editing.") /\
  (forall note, NoteList.noteToEdit edited = Some note ->
     (blank (NoteList.editNoteTitle edited) = true ->
      NoteList.editNoteError (NoteList.editing st') = Some "Title is required.") /\
     (blank (NoteList.editNoteTitle edited) = false ->
      blank (NoteList.editNoteContent edited) = true ->
      NoteList.editNoteError (NoteList.editing st') = Some "Content is required.") /\
     (blank (NoteList.editNoteTitle edited) = false ->
      blank (NoteList.editNoteContent edited) = false ->
      match updateNote fetch (Note.id note) (NoteList.editNoteTitle edited)
              (NoteList.editNoteContent edited) with
      | Resolved _ => NoteList.editNoteError (NoteList.editing st') = None
      | Rejected _ =>
          NoteList.editing st'
          = {| NoteList.showEditNoteModal := NoteList.showEditNoteModal edited;
               NoteList.noteToEdit := Some note;
               NoteList.editNoteTitle := NoteList.editNoteTitle edited;
               NoteList.editNoteContent := NoteList.editNoteContent edited;
               NoteList.isEditingNote := false;
               NoteList.editNoteError := Some "Failed to update note. Please try again." |}
      end)) /\
  (let closed :=
     {| NoteList.listing := NoteList.listing st; NoteList.adding := NoteList.adding st;
        NoteList.editing := NoteList.handleCloseEditNoteModal (NoteList.editing st);
        NoteList.deleting := NoteList.deleting st |} in
   NoteList.listing (NoteList.handleUpdateNote fetch notebookId closed) = NoteList.listing st /\
   NoteList.editNoteError (NoteList.editing (NoteList.handleUpdateNote fetch notebookId closed))
   = Some "No note selected for editing.").
Proof.
  cbv zeta. split; [exact (handleUpdateNote_sends_only_valid fetch notebookId st) |].
  split; [exact (proj1 (handleUpdateNote_messages fetch notebookId st)) |].
  split; [exact (proj2 (handleUpdateNote_messages fetch notebookId st)) |].
  split; reflexivity.
Qed.

(** X19: [handleDeleteNote] does nothing without a note to delete or without
    a notebook.  When the server confirms, the confirmation closes, the note
    is no longer selected and the list is loaded again; when it fails the
    confirmation stays on the same note, the list stays and "Failed to
    delete note. Please try again." is shown.  A second confirmation after a
    successful one sends nothing. *)
Theorem handleDeleteNote_outcome (fetch : Fetch) (notebookId : string) (st : NoteList.State) :
  let st' := NoteList.handleDeleteNote fetch notebookId st in
  (NoteList.noteToDelete (NoteList.deleting st) = None \/ notebookId = "" -> st' = st) /\
  (forall note,
     NoteList.noteToDelete (NoteList.deleting st) = Some note -> notebookId <> "" ->
     match deleteNote fetch (Note.id note) with
     | Resolved _ =>
         NoteList.deleting st'
         = {| NoteList.showDeleteConfirmModal := false; NoteList.noteToDelete := None;
              NoteList.isDeletingNote := false; NoteList.deleteNoteError := None |} /\
         NoteList.listing st' = NoteList.loadNotes fetch notebookId (NoteList.listing st) /\
         (forall fetch', NoteList.handleDeleteNote fetch' notebookId st' = st')
     | Rejected _ =>
         NoteList.listing st' = NoteList.listing st /\
         NoteList.noteToDelete (NoteList.deleting st') = Some note /\
         NoteList.showDeleteConfirmModal (NoteList.deleting st')
         = NoteList.showDeleteConfirmModal (NoteList.deleting st) /\
         NoteList.deleteNoteError (NoteList.deleting st')
         = Some "Failed to delete note. Please try again."
     end).
Proof.
  cbv zeta. unfold NoteList.handleDeleteNote. split.
  - intros [-> | ->]; [reflexivity |].
    destruct (NoteList.noteToDelete (NoteList.deleting st)); reflexivity.
  - intros note -> Hne.
    destruct (String.eqb_spec notebookId ""); [contradiction |].
    destruct (deleteNote _ _) as [[] | err]; simpl; repeat split; reflexivity.
Qed.

(** ** The chat tab of a notebook *)

(** X20: creating a chat session sends a title of only white space as no
    title and any other title trimmed.  When the server answers with the new
    session, that session is put first in the list, before all sessions
    already shown and in their order, and becomes the selected one, the
    dialog closes and its title is cleared; when the request fails, the
    list, the selection and the dialog stay and "Failed to create chat
    session." is shown. *)
Theorem handleCreateChatSession_outcome (fetch : Fetch) (notebookId : string)
    (c : NotebookDetail.Chat) :
  (blank (NotebookDetail.newChatSessionTitle c) = true ->
   NotebookDetail.titleToUse c = JUndefined) /\
  (blank (NotebookDetail.newChatSessionTitle c) = false ->
   NotebookDetail.titleToUse c = JStr (trim (NotebookDetail.newChatSessionTitle c))) /\
  (notebookId = "" ->
   NotebookDetail.handleCreateChatSession fetch notebookId c = NotebookDetail.Mounted c) /\
  (notebookId <> "" ->
   match createChatSession fetch notebookId (NotebookDetail.titleToUse c) with
   | Resolved newSession =>
       forall props prevSessions,
         newSession = JObj props ->
         NotebookDetail.chatSessions c = JArr prevSessions ->
         NotebookDetail.handleCreateChatSession fetch notebookId c
         = NotebookDetail.Mounted
             {| NotebookDetail.chatSessions := JArr (newSession :: prevSessions);
                NotebookDetail.loadingChatSessions := NotebookDetail.loadingChatSessions c;
                NotebookDetail.chatError := None;
                NotebookDetail.selectedChatSessionId := assoc "id" props;
                NotebookDetail.showCreateChatModal := false;
                NotebookDetail.newChatSessionTitle := "" |}
   | Rejected _ =>
       NotebookDetail.handleCreateChatSession fetch notebookId c
       = NotebookDetail.Mounted
           {| NotebookDetail.chatSessions := NotebookDetail.chatSessions c;
              NotebookDetail.loadingChatSessions := NotebookDetail.loadingChatSessions c;
              NotebookDetail.chatError := Some "Failed to create chat session.";
              NotebookDetail.selectedChatSessionId := NotebookDetail.selectedChatSessionId c;
              NotebookDetail.showCreateChatModal := NotebookDetail.showCreateChatModal c;
              NotebookDetail.newChatSessionTitle := NotebookDetail.newChatSessionTitle c |}
   end).
Proof.
  split; [| split; [| split]].
  - unfold NotebookDetail.titleToUse, blank, js_or. simpl. intros ->. reflexivity.
  - unfold NotebookDetail.titleToUse, blank, js_or. simpl. intros ->. reflexivity.
  - intros ->. reflexivity.
  - intros Hne. unfold NotebookDetail.handleCreateChatSession.
    destruct (String.eqb_spec notebookId ""); [contradiction |].
    destruct (createChatSession _ _ _) as [newSession | err]; [| reflexivity].
    intros props prevSessions -> ->. reflexivity.
Qed.
